(** * Portfolio Tracker (app.py): a shallow embedding and its properties

    The Flask application of [src/app.py] is embedded function by
    function.  Python values coming from the network are JSON values,
    exceptions are an error result, and the effects of a view (database
    rows, the login session, flashed messages, log lines and calls to the
    outside) are threaded through an explicit state. *)

From Stdlib Require Import String Ascii List ZArith Bool Lia SpecFloat.
From Stdlib Require Strings.Byte.
Import ListNotations.
Local Open Scope string_scope.
Local Open Scope list_scope.

#[local] Set Warnings "-register-all".

(** ** Python values and exceptions *)

(** What [json.loads] can return.  A dict is an association list in
    iteration order; lookups take the first binding of a key. *)
Inductive json : Type :=
| JNull
| JBool (b : bool)
| JInt (z : Z)
| JFloat (f : spec_float)
| JStr (s : string)
| JArr (items : list json)
| JObj (kvs : list (string * json)).

(** The exceptions that the modelled code can meet.  The first three are
    the ones of [requests]: a transport failure raised by [requests.get],
    [HTTPError] raised by [raise_for_status], and the decoding error of
    [response.json()] (a [RequestException] since requests 2.27). *)
Inductive exn : Type :=
| TransportError (reason : string)
| HTTPError (status : Z)
| JSONDecodeError
| ValueError
| TypeError
| KeyError (key : string)
| AttributeError
| OverflowError
| RecursionError
| IntegrityError.

(** [isinstance(e, requests.RequestException)] *)
Definition is_RequestException (e : exn) : bool :=
  match e with
  | TransportError _ | HTTPError _ | JSONDecodeError => true
  | _ => false
  end.

Inductive result (A : Type) : Type :=
| Ret (a : A)
| Raise (e : exn).
Arguments Ret {A} a.
Arguments Raise {A} e.

(** ** Dictionaries and truth values *)

Fixpoint dict_lookup {V : Type} (k : string) (d : list (string * V)) : option V :=
  match d with
  | [] => None
  | (k', v) :: rest => if String.eqb k' k then Some v else dict_lookup k rest
  end.

Definition dict_keys {V : Type} (d : list (string * V)) : list string :=
  map fst d.

Definition dict_has {V : Type} (k : string) (d : list (string * V)) : bool :=
  match dict_lookup k d with Some _ => true | None => false end.

(** [d[k] = v]: an existing key keeps its position. *)
Fixpoint dict_set {V : Type} (k : string) (v : V) (d : list (string * V))
  : list (string * V) :=
  match d with
  | [] => [(k, v)]
  | (k', v') :: rest =>
      if String.eqb k' k then (k', v) :: rest else (k', v') :: dict_set k v rest
  end.

Definition float_is_zero (f : spec_float) : bool :=
  match f with S754_zero _ => true | _ => false end.

(** [bool(v)] *)
Definition truthy (v : json) : bool :=
  match v with
  | JNull => false
  | JBool b => b
  | JInt z => negb (Z.eqb z 0)
  | JFloat f => negb (float_is_zero f)
  | JStr s => negb (String.eqb s "")
  | JArr items => match items with [] => false | _ => true end
  | JObj kvs => match kvs with [] => false | _ => true end
  end.

Definition is_substring (needle hay : string) : bool :=
  match String.index 0 needle hay with Some _ => true | None => false end.

(** [key in data] *)
Definition py_contains (key : string) (data : json) : result bool :=
  match data with
  | JObj kvs => Ret (dict_has key kvs)
  | JArr items =>
      Ret (existsb (fun v => match v with JStr s => String.eqb s key | _ => false end)
             items)
  | JStr s => Ret (is_substring key s)
  | _ => Raise TypeError
  end.

(** [data.get(key)] *)
Definition py_get (key : string) (data : json) : result json :=
  match data with
  | JObj kvs => Ret (match dict_lookup key kvs with Some v => v | None => JNull end)
  | _ => Raise AttributeError
  end.

(** [entry[key]] with a string key *)
Definition py_getitem (key : string) (entry : json) : result json :=
  match entry with
  | JObj kvs =>
      match dict_lookup key kvs with Some v => Ret v | None => Raise (KeyError key) end
  | _ => Raise TypeError
  end.

(** [data.keys()] *)
Definition py_keys (data : json) : result (list string) :=
  match data with
  | JObj kvs => Ret (dict_keys kvs)
  | _ => Raise AttributeError
  end.

(** ** Database rows, session and the state of a request *)

Record User : Type := mkUser {
  id : Z;
  username : string;
  email : string;
  password_hash : string
}.

Record login_session : Type := mkSession {
  user_id : Z;
  remember : bool
}.

(** Calls that leave the process. *)
Inductive event : Type :=
| HttpGet (url : string)
| LogError (message : string) (exc : option exn)
| CheckPassword (pwhash password : string).

Record state : Type := mkState {
  users : list User;
  session : option login_session;
  flashes : list (string * string);
  trace : list event
}.

Definition set_users (us : list User) (st : state) : state :=
  mkState us (session st) (flashes st) (trace st).
Definition set_session (s : option login_session) (st : state) : state :=
  mkState (users st) s (flashes st) (trace st).
Definition add_flash (category message : string) (st : state) : state :=
  mkState (users st) (session st) (flashes st ++ [(category, message)]) (trace st).
Definition add_event (ev : event) (st : state) : state :=
  mkState (users st) (session st) (flashes st) (trace st ++ [ev]).

(** ** The monad of views: state and exceptions *)

Definition M (A : Type) : Type := state -> result A * state.

Definition ret {A : Type} (a : A) : M A := fun st => (Ret a, st).
Definition raise {A : Type} (e : exn) : M A := fun st => (Raise e, st).
Definition bind {A B : Type} (c : M A) (k : A -> M B) : M B :=
  fun st =>
    match c st with
    | (Ret a, st') => k a st'
    | (Raise e, st') => (Raise e, st')
    end.
Definition lift {A : Type} (r : result A) : M A := fun st => (r, st).
Definition gets {A : Type} (f : state -> A) : M A := fun st => (Ret (f st), st).
Definition modify (f : state -> state) : M unit := fun st => (Ret tt, f st).

(** [try: body except <handles> as e: handler e] *)
Definition try_except {A : Type} (body : M A) (handles : exn -> bool)
  (handler : exn -> M A) : M A :=
  fun st =>
    match body st with
    | (Ret a, st') => (Ret a, st')
    | (Raise e, st') => if handles e then handler e st' else (Raise e, st')
    end.

Declare Scope py_scope.
Delimit Scope py_scope with py.
Notation "x <- c ;; k" := (bind c (fun x => k))
  (at level 61, c at next level, right associativity) : py_scope.
Notation "c ;; k" := (bind c (fun _ => k))
  (at level 61, right associativity) : py_scope.
Local Open Scope py_scope.

(** [flash(message, category)] *)
Definition flash (message category : string) : M unit :=
  modify (add_flash category message).

(** [app.logger.error(...)]; [exc] is the exception interpolated at the
    end of the message, if any. *)
Definition logger_error (message : string) (exc : option exn) : M unit :=
  modify (add_event (LogError message exc)).

(** ** The outside world

    What one call of [requests.get] meets: no usable reply (timeout, DNS,
    refused connection, invalid URL), or a reply with a status code and a
    body, which is JSON or not.  A body can also make [response.json()]
    raise something else than its decoding error: [RecursionError] on
    deeply nested JSON, a plain [ValueError] on an integer beyond the
    digit limit of [int]; such a reply is a [BrokenReply] with the
    exception that the decoder raises. *)
Inductive http_reply : Type :=
| NoReply (reason : string)
| Reply (status : Z) (body : option json)
| BrokenReply (status : Z) (fault : exn).

(** The configuration and the surroundings of one request. *)
Record world : Type := mkWorld {
  ALPHA_VANTAGE_API_KEY : string;
  network : string -> http_reply;
  salt : string
}.

(** Library functions that the application calls and that are kept
    abstract: [float] on a string ([None] is [ValueError]), matplotlib
    (the calls from [plt.figure] to [plt.savefig], taking title, dates and
    prices to the bytes of the PNG, or raising, as matplotlib does on a
    title that is not valid mathtext or on prices whose range is not
    finite), werkzeug's password hashing and the [Email()] validator of
    WTForms. *)
Class Runtime : Type := {
  float_of_string : string -> option spec_float;
  savefig : string -> list string -> list spec_float -> result (list Byte.byte);
  generate_password_hash : string -> string -> string;
  check_password_hash : string -> string -> bool;
  email_validator : string -> bool
}.

Record profile_info : Type := mkProfile {
  preferred_stocks : list string;
  details : json
}.

(** Modelled from the spec: the module [data] (data.py) imported by
    app.py is not part of the sources.  The spec describes its mock series
    generator as deterministic per ticker; [get_mock_profile] gives the
    preferred tickers of a user and [get_mock_recommendations] a
    recommendation list.  They are functions without effects here. *)
Class DataModule : Type := {
  get_mock_stock_data : string -> json;
  get_mock_profile : User -> profile_info;
  get_mock_recommendations : json
}.

(** ** requests *)

(** [requests.get(url)]: the response, as its status code and what
    [response.json()] will do. *)
Definition requests_get (w : world) (url : string) : M (Z * result json) :=
  modify (add_event (HttpGet url)) ;;
  match network w url with
  | NoReply reason => raise (TransportError reason)
  | Reply status (Some data) => ret (status, Ret data)
  | Reply status None => ret (status, Raise JSONDecodeError)
  | BrokenReply status fault => ret (status, Raise fault)
  end.

(** [response.raise_for_status()] *)
Definition raise_for_status (response : Z * result json) : M unit :=
  let status := fst response in
  if (400 <=? status)%Z && (status <? 600)%Z then raise (HTTPError status)
  else ret tt.

(** [response.json()] *)
Definition response_json (response : Z * result json) : M json :=
  lift (snd response).

Section StockData.
Context {data_py : DataModule}.

Definition base_url : string := "https://www.alphavantage.co/query?".
Definition function : string := "TIME_SERIES_DAILY".

Definition stock_url (w : world) (ticker : string) : string :=
  base_url ++ "function=" ++ function ++ "&symbol=" ++ ticker
    ++ "&apikey=" ++ ALPHA_VANTAGE_API_KEY w.

(** [get_stock_data(ticker)], app.py lines 182-205 *)
Definition get_stock_data (w : world) (ticker : string) : M json :=
  let url := stock_url w ticker in
  try_except
    (response <- requests_get w url ;;
     raise_for_status response ;;
     data <- response_json response ;;
     has_error <- lift (py_contains "Error Message" data) ;;
     if (has_error : bool) then
       logger_error ("Error retrieving data for " ++ ticker)%string None ;;
       ret (get_mock_stock_data ticker)
     else
       time_series <- lift (py_get "Time Series (Daily)" data) ;;
       if negb (truthy time_series) then ret (get_mock_stock_data ticker)
       else ret time_series)
    is_RequestException
    (fun e =>
       logger_error ("Request failed for " ++ ticker ++ ": ")%string (Some e) ;;
       ret (get_mock_stock_data ticker)).

End StockData.

(** ** base64 *)

Definition b64_alphabet : string :=
  "ABCDEFGHIJKLMNOPQRSTUVWXYZabcdefghijklmnopqrstuvwxyz0123456789+/".

Definition b64_char (n : N) : ascii :=
  match String.get (N.to_nat n) b64_alphabet with
  | Some c => c
  | None => "="%char
  end.

(** [base64.b64encode(bs).decode()]: three bytes give four characters,
    the tail is padded with [=]. *)
Fixpoint b64encode (bs : list Byte.byte) : string :=
  match bs with
  | [] => ""
  | [a] =>
      let x := Byte.to_N a in
      String (b64_char (x / 4))
        (String (b64_char ((x mod 4) * 16)) "==")
  | [a; b] =>
      let x := Byte.to_N a in
      let y := Byte.to_N b in
      String (b64_char (x / 4))
        (String (b64_char ((x mod 4) * 16 + y / 16))
           (String (b64_char ((y mod 16) * 4)) "="))
  | a :: b :: c :: rest =>
      let x := Byte.to_N a in
      let y := Byte.to_N b in
      let z := Byte.to_N c in
      String (b64_char (x / 4))
        (String (b64_char ((x mod 4) * 16 + y / 16))
           (String (b64_char ((y mod 16) * 4 + z / 64))
              (String (b64_char (z mod 64)) (b64encode rest))))
  end%N.

(** ** The chart renderer *)

(** A list comprehension whose element expression can raise: the first
    exception ends it. *)
Fixpoint comprehension {A B : Type} (f : A -> result B) (l : list A)
  : result (list B) :=
  match l with
  | [] => Ret []
  | x :: rest =>
      match f x with
      | Raise e => Raise e
      | Ret y =>
          match comprehension f rest with
          | Raise e => Raise e
          | Ret ys => Ret (y :: ys)
          end
      end
  end.

Definition float_one : spec_float := S754_finite false 4503599627370496 (-52).

(** [float(n)] for an int: round to nearest, [OverflowError] beyond the
    range of a double. *)
Definition float_of_int (z : Z) : result spec_float :=
  match binary_normalize 53 1024 z 0 false with
  | S754_infinity _ => Raise OverflowError
  | f => Ret f
  end.

Section Chart.
Context {rt : Runtime}.

(** [float(v)] *)
Definition py_float (v : json) : result spec_float :=
  match v with
  | JStr s =>
      match float_of_string s with Some f => Ret f | None => Raise ValueError end
  | JInt z => float_of_int z
  | JFloat f => Ret f
  | JBool b => Ret (if b then float_one else S754_zero false)
  | JNull | JArr _ | JObj _ => Raise TypeError
  end.

(** [float(time_series[date]['4. close'])] *)
Definition close_price (time_series : json) (date : string) : result spec_float :=
  match py_getitem date time_series with
  | Raise e => Raise e
  | Ret entry =>
      match py_getitem "4. close" entry with
      | Raise e => Raise e
      | Ret close => py_float close
      end
  end.

(** [create_stock_graph(ticker, time_series)], app.py lines 208-225 *)
Definition create_stock_graph (ticker : string) (time_series : json)
  : result string :=
  match py_keys time_series with
  | Raise e => Raise e
  | Ret dates =>
      match comprehension (close_price time_series) dates with
      | Raise e => Raise e
      | Ret close_prices =>
          (* [plt.figure] ... [plt.savefig(img, format='png')] *)
          match savefig ("Stock Prices for " ++ ticker)%string dates close_prices with
          | Raise e => Raise e
          | Ret img =>
              let graph_url := b64encode img in
              Ret ("data:image/png;base64," ++ graph_url)%string
          end
      end
  end.

End Chart.

(** ** Requests and WTForms *)

Inductive http_method : Type := GET | POST.

(** A request: the submitted form fields and the verdict of the CSRF
    check of Flask-WTF ([None] when the token is accepted). *)
Record request : Type := mkRequest {
  method : http_method;
  path : string;
  form_data : list (string * string);
  csrf_error : option string
}.

Definition field_data (name : string) (req : request) : option string :=
  dict_lookup name (form_data req).

(** The text of a field that has passed [DataRequired]. *)
Definition str_data (d : option string) : string :=
  match d with Some s => s | None => "" end.

(** [c.isspace()] for a code point below 256 *)
Definition is_space (c : ascii) : bool :=
  let n := nat_of_ascii c in
  ((9 <=? n) && (n <=? 13) || (28 <=? n) && (n <=? 32)
   || (n =? 133) || (n =? 160))%nat.

(** [bool(s.strip())] *)
Definition strip_nonempty (s : string) : bool :=
  existsb (fun c => negb (is_space c)) (list_ascii_of_string s).

(** What a validator does: return, raise [ValidationError] or raise
    [StopValidation]. *)
Inductive verdict : Type :=
| Pass
| Fail (message : string)
| Stop (message : string).

(** [Field._run_validation_chain]: errors are collected until a
    validator stops the chain. *)
Fixpoint run_validation_chain (chain : list verdict) : list string :=
  match chain with
  | [] => []
  | Pass :: rest => run_validation_chain rest
  | Fail message :: rest => message :: run_validation_chain rest
  | Stop message :: _ => [message]
  end.

Definition DataRequired (data : option string) : verdict :=
  match data with
  | Some s => if strip_nonempty s then Pass else Stop "This field is required."
  | None => Stop "This field is required."
  end.

Definition EqualTo (other data : option string) : verdict :=
  match data, other with
  | Some a, Some b =>
      if String.eqb a b then Pass else Fail "Field must be equal to password."
  | None, None => Pass
  | _, _ => Fail "Field must be equal to password."
  end.

Definition csrf_token_errors (req : request) : list string :=
  match csrf_error req with Some message => [message] | None => [] end.

(** The errors of a form, field by field in declaration order. *)
Definition form_errors : Type := list (string * list string).

Definition field_errors (name : string) (errors : form_errors) : list string :=
  match dict_lookup name errors with Some l => l | None => [] end.

(** [Form.validate()]: every field is validated, and the form is valid
    when no field has an error. *)
Definition no_errors (errors : form_errors) : bool :=
  forallb (fun fe => match snd fe with [] => true | _ => false end) errors.

Definition is_submitted (req : request) : bool :=
  match method req with POST => true | GET => false end.

(** ** Queries on the user table *)

(** [User.query.filter_by(username=name).first()] *)
Definition query_by_username (name : string) (rows : list User) : option User :=
  find (fun u => String.eqb (username u) name) rows.

(** [User.query.filter_by(email=addr).first()] *)
Definition query_by_email (addr : string) (rows : list User) : option User :=
  find (fun u => String.eqb (email u) addr) rows.

(** [User.query.get(uid)] *)
Definition query_get (uid : Z) (rows : list User) : option User :=
  find (fun u => Z.eqb (id u) uid) rows.

Definition next_id (rows : list User) : Z :=
  (1 + fold_right Z.max 0 (map id rows))%Z.

(** [db.session.add(user); db.session.commit()]: the row gets the next
    primary key; the unique indexes on username and email reject a
    second row with the same value. *)
Definition db_add_commit (user : User) : M unit :=
  fun st =>
    let rows := users st in
    if existsb (fun r => String.eqb (username r) (username user)
                         || String.eqb (email r) (email user)) rows
    then (Raise IntegrityError, st)
    else (Ret tt,
          set_users (rows ++ [mkUser (next_id rows) (username user) (email user)
                                (password_hash user)]) st).

(** ** Forms of the application *)

Definition LoginForm_validate (req : request) : form_errors :=
  [ ("username", run_validation_chain [DataRequired (field_data "username" req)]);
    ("password", run_validation_chain [DataRequired (field_data "password" req)]);
    ("remember_me", []);
    ("submit", []);
    ("csrf_token", csrf_token_errors req) ].

(** [BooleanField]: checked unless absent, empty or "false". *)
Definition remember_me (req : request) : bool :=
  match field_data "remember_me" req with
  | Some v => negb (String.eqb v "" || String.eqb v "false")
  | None => false
  end.

Definition StockForm_validate (req : request) : form_errors :=
  [ ("ticker", run_validation_chain [DataRequired (field_data "ticker" req)]);
    ("submit", []);
    ("csrf_token", csrf_token_errors req) ].

(** [RegistrationForm.validate_username] *)
Definition validate_username (rows : list User) (data : option string) : verdict :=
  match query_by_username (str_data data) rows with
  | Some _ => Fail "Please use a different username."
  | None => Pass
  end.

(** [RegistrationForm.validate_email] *)
Definition validate_email (rows : list User) (data : option string) : verdict :=
  match query_by_email (str_data data) rows with
  | Some _ => Fail "Please use a different email address."
  | None => Pass
  end.

Section Forms.
Context {rt : Runtime}.

Definition Email (data : option string) : verdict :=
  match data with
  | Some s => if email_validator s then Pass else Fail "Invalid email address."
  | None => Fail "Invalid email address."
  end.

(** The inline validators [validate_<field>] are run at the end of the
    chain of their field. *)
Definition RegistrationForm_validate (rows : list User) (req : request)
  : form_errors :=
  let username := field_data "username" req in
  let email := field_data "email" req in
  let password := field_data "password" req in
  let password2 := field_data "password2" req in
  [ ("username",
      run_validation_chain [DataRequired username; validate_username rows username]);
    ("email",
      run_validation_chain [DataRequired email; Email email; validate_email rows email]);
    ("password", run_validation_chain [DataRequired password]);
    ("password2",
      run_validation_chain [DataRequired password2; EqualTo password password2]);
    ("submit", []);
    ("csrf_token", csrf_token_errors req) ].

End Forms.

(** ** Responses *)

Inductive endpoint : Type :=
| Index | Login | Logout | Register
| Dashboard | Profile | StockTracker | Recommendations.

(** The templates with the values handed to [render_template]. *)
Inductive page : Type :=
| index_html
| login_html (form : form_errors)
| register_html (form : form_errors)
| dashboard_html (stock_data : list (string * json))
| profile_html (user : User) (info : profile_info)
| stock_tracker_html (form : form_errors) (stock_data : option json)
    (graph_url : option string) (ticker : option string)
| recommendations_html (recommendations : json)
| error_404_html
| error_500_html
| method_not_allowed.

Inductive response : Type :=
| Redirect (target : endpoint) (next : option string)
| Rendered (body : page) (status : Z).

(** [redirect(url_for(target))] *)
Definition redirect (target : endpoint) : response := Redirect target None.

(** [render_template(...)] returned from a view: status 200. *)
Definition render_template (body : page) : response := Rendered body 200.

(** ** Flask-Login *)

(** [load_user(user_id)] *)
Definition load_user (uid : Z) (st : state) : option User :=
  query_get uid (users st).

(** [current_user]: the user of the session, the anonymous user ([None])
    without a session or when the row is gone. *)
Definition get_current_user (st : state) : option User :=
  match session st with
  | Some s => load_user (user_id s) st
  | None => None
  end.

Definition current_user : M (option User) := gets get_current_user.

Definition is_authenticated (u : option User) : bool :=
  match u with Some _ => true | None => false end.

(** [login_user(user, remember=...)] *)
Definition login_user (user : User) (remember : bool) : M unit :=
  modify (set_session (Some (mkSession (id user) remember))).

(** [logout_user()] *)
Definition logout_user : M unit := modify (set_session None).

(** [LoginManager.unauthorized()] with [login_view = 'login']: flash the
    login message and redirect to the login page, the requested URL
    carried along as [next]. *)
Definition unauthorized (req : request) : M response :=
  flash "Please log in to access this page." "message" ;;
  ret (Redirect Login (Some (path req))).

(** [@login_required]: the wrapped view runs only for an authenticated
    user, who is what [current_user] denotes inside it.  (The exemption
    of Flask-Login for OPTIONS does not matter: Flask answers OPTIONS
    itself, before a view is reached.) *)
Definition login_required (req : request) (view : User -> M response)
  : M response :=
  user <- current_user ;;
  match user with
  | None => unauthorized req
  | Some u => view u
  end.

(** ** Views *)

Section Views.
Context {rt : Runtime} {data_py : DataModule}.

(** [User.set_password] *)
Definition set_password (w : world) (user : User) (password : string) : User :=
  mkUser (id user) (username user) (email user)
    (generate_password_hash (salt w) password).

(** [User.check_password] *)
Definition check_password (user : User) (password : string) : M bool :=
  modify (add_event (CheckPassword (password_hash user) password)) ;;
  ret (check_password_hash (password_hash user) password).

(** [index()] *)
Definition index : M response := ret (render_template index_html).

(** [login()], app.py lines 101-113 *)
Definition login (req : request) : M response :=
  user <- current_user ;;
  if is_authenticated user then ret (redirect Index)
  else
    let errors := LoginForm_validate req in
    if is_submitted req && no_errors errors then
      let name := str_data (field_data "username" req) in
      let password := str_data (field_data "password" req) in
      user <- gets (fun st => query_by_username name (users st)) ;;
      (* [user is None or not user.check_password(...)] *)
      invalid <-
        match user with
        | None => ret true
        | Some u => ok <- check_password u password ;; ret (negb ok)
        end ;;
      match invalid, user with
      | false, Some u =>
          login_user u (remember_me req) ;;
          ret (redirect Index)
      | _, _ =>
          flash "Invalid username or password" "message" ;;
          ret (redirect Login)
      end
    else
      ret (render_template
             (login_html (if is_submitted req then errors else []))).

(** [logout()] *)
Definition logout : M response :=
  logout_user ;;
  ret (redirect Index).

(** [register()], app.py lines 120-132 *)
Definition register (w : world) (req : request) : M response :=
  user <- current_user ;;
  if is_authenticated user then ret (redirect Index)
  else
    errors <- gets (fun st => RegistrationForm_validate (users st) req) ;;
    if is_submitted req && no_errors errors then
      let user := mkUser 0 (str_data (field_data "username" req))
                    (str_data (field_data "email" req)) "" in
      let user := set_password w user (str_data (field_data "password" req)) in
      db_add_commit user ;;
      flash "Congratulations, you are now a registered user!" "message" ;;
      ret (redirect Login)
    else
      ret (render_template
             (register_html (if is_submitted req then errors else []))).

(** The dict comprehension [{ticker: get_stock_data(ticker) for ...}] *)
Fixpoint stock_data_of (w : world) (tickers : list string)
  (acc : list (string * json)) : M (list (string * json)) :=
  match tickers with
  | [] => ret acc
  | ticker :: rest =>
      series <- get_stock_data w ticker ;;
      stock_data_of w rest (dict_set ticker series acc)
  end.

(** [dashboard()] *)
Definition dashboard (w : world) (user : User) : M response :=
  let preferred := preferred_stocks (get_mock_profile user) in
  stock_data <- stock_data_of w preferred [] ;;
  ret (render_template (dashboard_html stock_data)).

(** [profile()] *)
Definition profile (user : User) : M response :=
  ret (render_template (profile_html user (get_mock_profile user))).

(** [stock_tracker()], app.py lines 147-163 *)
Definition stock_tracker (w : world) (req : request) : M response :=
  let errors := StockForm_validate req in
  if is_submitted req && no_errors errors then
    let ticker := str_data (field_data "ticker" req) in
    stock_data <- get_stock_data w ticker ;;
    graph_url <-
      (if truthy stock_data then
         url <- lift (create_stock_graph ticker stock_data) ;;
         ret (Some url)
       else
         flash "Error retrieving stock data. Displaying mock data." "danger" ;;
         ret None) ;;
    ret (render_template
           (stock_tracker_html errors (Some stock_data) graph_url (Some ticker)))
  else
    ret (render_template
           (stock_tracker_html (if is_submitted req then errors else [])
              None None None)).

(** [recommendations()] *)
Definition recommendations : M response :=
  ret (render_template (recommendations_html get_mock_recommendations)).

(** ** Routing *)

(** The [@app.route] table: path, endpoint and accepted methods. *)
Definition url_map : list (string * (endpoint * list http_method)) :=
  [ ("/", (Index, [GET]));
    ("/index", (Index, [GET]));
    ("/login", (Login, [GET; POST]));
    ("/logout", (Logout, [GET]));
    ("/register", (Register, [GET; POST]));
    ("/dashboard", (Dashboard, [GET]));
    ("/profile", (Profile, [GET]));
    ("/stock_tracker", (StockTracker, [GET; POST]));
    ("/recommendations", (Recommendations, [GET])) ].

(** The view registered for an endpoint, decorators included. *)
Definition view_function (w : world) (ep : endpoint) (req : request)
  : M response :=
  match ep with
  | Index => index
  | Login => login req
  | Logout => logout
  | Register => register w req
  | Dashboard => login_required req (dashboard w)
  | Profile => login_required req profile
  | StockTracker => login_required req (fun _ => stock_tracker w req)
  | Recommendations => login_required req (fun _ => recommendations)
  end.

(** [not_found_error] *)
Definition not_found_error : response := Rendered error_404_html 404.

(** [internal_error]: nothing uncommitted is kept in [users], so the
    rollback leaves the state as it is. *)
Definition internal_error : response := Rendered error_500_html 500.

Definition method_eqb (a b : http_method) : bool :=
  match a, b with GET, GET | POST, POST => true | _, _ => false end.

(** One request through the application (not in debug mode): routing,
    the view, and the handler of uncaught exceptions. *)
Definition full_dispatch_request (w : world) (req : request) (st : state)
  : response * state :=
  match dict_lookup (path req) url_map with
  | None => (not_found_error, st)
  | Some (ep, methods) =>
      if existsb (method_eqb (method req)) methods then
        match view_function w ep req st with
        | (Ret r, st') => (r, st')
        | (Raise _, st') => (internal_error, st')
        end
      else (Rendered method_not_allowed 405, st)
  end.

End Views.

(** ** A reference runtime

    Concrete library functions on which the views can be run: a reader
    of the decimal literals that [float] accepts, a renderer that returns
    a fixed PNG signature followed by one byte per point and raises
    [ValueError] on two inputs on which matplotlib does, and a password
    hash that keeps the salt and the password readable. *)
Module Reference.

Definition is_digit (c : ascii) : bool :=
  let n := nat_of_ascii c in ((48 <=? n) && (n <=? 57))%nat.

Definition digit_value (c : ascii) : Z := Z.of_nat (nat_of_ascii c - 48).

(** A digit part: digits, single underscores allowed between two digits.
    Returns the value, the number of digits read and what follows. *)
Fixpoint read_digits (l : list ascii) (acc : Z) (count : nat)
  : Z * nat * list ascii :=
  match l with
  | [] => (acc, count, [])
  | c :: rest =>
      if is_digit c then read_digits rest (acc * 10 + digit_value c)%Z (S count)
      else if Ascii.eqb c "_" then
        match count, rest with
        | S _, d :: _ => if is_digit d then read_digits rest acc count
                         else (acc, count, l)
        | _, _ => (acc, count, l)
        end
      else (acc, count, l)
  end.

Definition read_sign (l : list ascii) : bool * list ascii :=
  match l with
  | c :: rest =>
      if Ascii.eqb c "-" then (true, rest)
      else if Ascii.eqb c "+" then (false, rest)
      else (false, l)
  | [] => (false, [])
  end.

Definition lower (c : ascii) : ascii :=
  let n := nat_of_ascii c in
  if ((65 <=? n) && (n <=? 90))%nat then ascii_of_nat (n + 32) else c.

Fixpoint strip_left (l : list ascii) : list ascii :=
  match l with
  | c :: rest => if is_space c then strip_left rest else l
  | [] => []
  end.

Definition strip (l : list ascii) : list ascii :=
  rev (strip_left (rev (strip_left l))).

(** The double nearest to [(-1)^neg * m * 10^e]. *)
Definition decimal_to_float (neg : bool) (m e : Z) : spec_float :=
  if (m =? 0)%Z then S754_zero neg
  else
    let sm := if neg then (- m)%Z else m in
    if (0 <=? e)%Z then binary_normalize 53 1024 (sm * 10 ^ e)%Z 0 false
    else SFdiv 53 1024 (binary_normalize 53 1024 sm 0 false)
           (binary_normalize 53 1024 (10 ^ (- e))%Z 0 false).

Definition read_exponent (l : list ascii) : option Z :=
  match l with
  | [] => Some 0%Z
  | c :: rest =>
      if Ascii.eqb (lower c) "e" then
        let (neg, rest1) := read_sign rest in
        match read_digits rest1 0 0 with
        | (v, S _, []) => Some (if neg then (- v)%Z else v)
        | _ => None
        end
      else None
  end.

Definition float_of_string (s : string) : option spec_float :=
  let (neg, body) := read_sign (strip (list_ascii_of_string s)) in
  let word := string_of_list_ascii (map lower body) in
  if String.eqb word "inf" || String.eqb word "infinity" then Some (S754_infinity neg)
  else if String.eqb word "nan" then Some S754_nan
  else
    match read_digits body 0 0 with
    | (int_part, n_int, after_int) =>
        let '(mantissa, n_frac, after_frac) :=
          match after_int with
          | c :: rest =>
              if Ascii.eqb c "." then read_digits rest int_part 0
              else (int_part, 0%nat, after_int)
          | [] => (int_part, 0%nat, [])
          end in
        match (n_int + n_frac)%nat, read_exponent after_frac with
        | S _, Some e => Some (decimal_to_float neg mantissa (e - Z.of_nat n_frac))
        | _, _ => None
        end
    end.

Definition png_signature : list Byte.byte :=
  [Byte.x89; Byte.x50; Byte.x4e; Byte.x47; Byte.x0d; Byte.x0a; Byte.x1a; Byte.x0a].

(** Between two dollar signs matplotlib expects mathtext, and a
    superscript sign alone is none. *)
Definition bad_mathtext (title : string) : bool := is_substring "$^$" title.

Definition is_finite (f : spec_float) : bool :=
  match f with S754_zero _ | S754_finite _ _ _ => true | _ => false end.

(** Two finite prices whose difference is beyond the doubles: the axis
    has no finite range. *)
Definition range_overflows (close_prices : list spec_float) : bool :=
  existsb (fun a =>
    existsb (fun b =>
      is_finite a && is_finite b
      && match SFsub 53 1024 a b with S754_infinity _ => true | _ => false end)
      close_prices)
    close_prices.

Definition savefig (title : string) (dates : list string)
  (close_prices : list spec_float) : result (list Byte.byte) :=
  if bad_mathtext title || range_overflows close_prices then Raise ValueError
  else Ret (png_signature ++ map (fun _ => Byte.x2e) close_prices).

Definition generate_password_hash (salt password : string) : string :=
  ("plain$" ++ salt ++ "$" ++ password)%string.

Fixpoint is_suffix (suffix s : string) : bool :=
  String.eqb suffix s
  || match s with
     | EmptyString => false
     | String _ rest => is_suffix suffix rest
     end.

Definition check_password_hash (pwhash password : string) : bool :=
  is_suffix ("$" ++ password)%string pwhash.

Definition email_validator (s : string) : bool := is_substring "@" s.

#[export] Instance runtime : Runtime := {
  float_of_string := float_of_string;
  savefig := savefig;
  generate_password_hash := generate_password_hash;
  check_password_hash := check_password_hash;
  email_validator := email_validator
}.

Definition mock_entries : list (string * json) :=
  [ ("2024-01-03", JObj [("4. close", JStr "151.10")]);
    ("2024-01-02", JObj [("4. close", JStr "150.25")]) ].

Definition mock_series : json := JObj mock_entries.

#[export] Instance data_py : DataModule := {
  get_mock_stock_data := fun _ => mock_series;
  get_mock_profile := fun _ => mkProfile ["AAPL"; "GOOGL"] JNull;
  get_mock_recommendations := JArr []
}.

End Reference.

(** ** Vocabulary of the statements *)

(** The status codes on which [raise_for_status] raises. *)
Definition is_http_error (status : Z) : bool :=
  ((400 <=? status) && (status <? 600))%Z.

(** The external request failed: no reply, an error status, or a body
    that is not JSON.  These are the [RequestException]s. *)
Definition request_failed (r : http_reply) : bool :=
  match r with
  | NoReply _ => true
  | Reply status body =>
      is_http_error status || match body with None => true | Some _ => false end
  | BrokenReply status _ => is_http_error status
  end.

(** The reply carries a JSON object, the documented shape of the
    provider's answers. *)
Definition object_reply (r : http_reply) : bool :=
  match r with
  | Reply _ (Some (JObj _)) => true
  | _ => false
  end.

Definition state0 : state := mkState [] None [] [].

Definition world_of (reply : http_reply) : world :=
  mkWorld "your_api_key_here" (fun _ => reply) "c2FsdA".

(** A reply that parses but is not a JSON object. *)
Definition null_reply : http_reply := Reply 200 (Some JNull).

(** A reply whose time-series field is present and empty. *)
Definition empty_series_reply : http_reply :=
  Reply 200 (Some (JObj [("Time Series (Daily)", JObj [])])).

Section ChartVocabulary.
Context {rt : Runtime}.

(** The entry of one day is a dict whose ['4. close'] is accepted by
    [float]. *)
Definition close_parses (entry : json) : bool :=
  match py_getitem "4. close" entry with
  | Ret close => match py_float close with Ret _ => true | Raise _ => false end
  | Raise _ => false
  end.

(** A series in which every close value parses as a float. *)
Definition chartable (time_series : json) : bool :=
  match time_series with
  | JObj kvs => forallb (fun kv => close_parses (snd kv)) kvs
  | _ => false
  end.

End ChartVocabulary.

(** A submitted stock form that passes validation, with its ticker. *)
Definition valid_stock_form (req : request) (ticker : string) : Prop :=
  is_submitted req && no_errors (StockForm_validate req) = true
  /\ field_data "ticker" req = Some ticker.

Definition data_uri_prefix : string := "data:image/png;base64,".

(** A series with a close value that is not a number. *)
Definition malformed_entries : list (string * json) :=
  [ ("2024-01-03", JObj [("4. close", JStr "151.10")]);
    ("2024-01-02", JObj [("4. close", JStr "N/A")]) ].

Definition malformed_series : json := JObj malformed_entries.

Definition malformed_reply : http_reply :=
  Reply 200 (Some (JObj [("Time Series (Daily)", malformed_series)])).

Definition alice : User :=
  mkUser 1 "alice" "alice@example.com" "plain$c2FsdA$secret123".

(** A state in which alice is logged in. *)
Definition state_alice : state :=
  mkState [alice] (Some (mkSession 1 false)) [] [].

(** Alice is registered, nobody is logged in. *)
Definition state_anonymous : state := mkState [alice] None [] [].

Definition post_ticker (ticker : string) : request :=
  mkRequest POST "/stock_tracker" [("ticker", ticker); ("submit", "Add Stock")] None.

(** The views behind [@login_required]. *)
Definition protected : list endpoint :=
  [Dashboard; Profile; StockTracker; Recommendations].

(** A submitted login form that passes validation, with its fields. *)
Definition valid_login_form (req : request) (name password : string) : Prop :=
  is_submitted req && no_errors (LoginForm_validate req) = true
  /\ field_data "username" req = Some name
  /\ field_data "password" req = Some password.

(** The outcome of a refused login: back to the login page with the one
    flashed message, no session, no change to the user table. *)
Definition invalid_credentials (st : state) (out : result response * state) : Prop :=
  fst out = Ret (Redirect Login None)
  /\ flashes (snd out) = flashes st ++ [("message", "Invalid username or password")]
  /\ session (snd out) = session st
  /\ users (snd out) = users st.

(** Every stored username and email has passed [DataRequired]. *)
Definition store_ok (rows : list User) : Prop :=
  Forall (fun u => strip_nonempty (username u) = true
                   /\ strip_nonempty (email u) = true) rows.

Definition get_request (p : string) : request := mkRequest GET p [] None.

Definition post_login (name password : string) : request :=
  mkRequest POST "/login"
    [("username", name); ("password", password); ("submit", "Sign In")] None.

Definition post_register (name addr password : string) : request :=
  mkRequest POST "/register"
    [("username", name); ("email", addr); ("password", password);
     ("password2", password); ("submit", "Register")] None.

(** ** Vocabulary of the further properties *)

(** The unique indexes of the user table and its primary key. *)
Definition unique_store (rows : list User) : Prop :=
  NoDup (map username rows) /\ NoDup (map email rows) /\ NoDup (map id rows).

Section RegistrationVocabulary.
Context {rt : Runtime}.

(** What the validators of [RegistrationForm] ask of a submission, read
    field by field. *)
Definition registration_accepted (rows : list User) (req : request)
  (name addr password : string) : Prop :=
  csrf_error req = None
  /\ field_data "username" req = Some name
  /\ strip_nonempty name = true
  /\ ~ In name (map username rows)
  /\ field_data "email" req = Some addr
  /\ strip_nonempty addr = true
  /\ email_validator addr = true
  /\ ~ In addr (map email rows)
  /\ field_data "password" req = Some password
  /\ strip_nonempty password = true
  /\ field_data "password2" req = Some password.

End RegistrationVocabulary.

(** The events of a trace that are requests to the provider. *)
Definition http_gets (events : list event) : list string :=
  flat_map (fun ev => match ev with HttpGet url => [url] | _ => [] end) events.

Definition is_log (ev : event) : bool :=
  match ev with LogError _ _ => true | _ => false end.

Definition bob_request : request :=
  post_register "bob" "bob@example.com" "hunter2".

(** A field that [DataRequired] refuses: missing, empty or white space. *)
Definition blank (data : option string) : bool :=
  match data with
  | Some s => negb (strip_nonempty s)
  | None => true
  end.

Definition bob : User :=
  mkUser 2 "bob" "bob@example.com" "plain$c2FsdA$hunter2".

(** A login form without a password. *)
Definition post_login_no_password : request :=
  mkRequest POST "/login" [("username", "alice"); ("password", "   ")] None.

(** A login with the right password and a rejected CSRF token. *)
Definition post_login_bad_csrf : request :=
  mkRequest POST "/login" [("username", "alice"); ("password", "secret123")]
    (Some "The CSRF token is missing.").


(** The exception of [float(entry['4. close'])], if it raises. *)
Section CloseError.
Context {rt : Runtime}.

Definition close_error (entry : json) : option exn :=
  match py_getitem "4. close" entry with
  | Raise e => Some e
  | Ret close => match py_float close with Raise e => Some e | Ret _ => None end
  end.

End CloseError.

(** ** Reading base64 back

    The decoder of RFC 4648, the inverse that a browser applies to the
    payload of a data URI. *)

Definition b64_index (c : ascii) : option N :=
  match String.index 0 (String c EmptyString) b64_alphabet with
  | Some n => Some (N.of_nat n)
  | None => None
  end.

Definition b64_pad : ascii := "="%char.

Fixpoint b64decode (s : string) : option (list Byte.byte) :=
  match s with
  | EmptyString => Some []
  | String c1 (String c2 (String c3 (String c4 rest))) =>
      match b64_index c1, b64_index c2 with
      | Some n1, Some n2 =>
          if Ascii.eqb c4 b64_pad then
            match rest with
            | EmptyString =>
                if Ascii.eqb c3 b64_pad then
                  match Byte.of_N (n1 * 4 + n2 / 16) with
                  | Some a => Some [a]
                  | None => None
                  end
                else
                  match b64_index c3 with
                  | Some n3 =>
                      match Byte.of_N (n1 * 4 + n2 / 16),
                            Byte.of_N ((n2 mod 16) * 16 + n3 / 4) with
                      | Some a, Some b => Some [a; b]
                      | _, _ => None
                      end
                  | None => None
                  end
            | String _ _ => None
            end
          else
            match b64_index c3, b64_index c4, b64decode rest with
            | Some n3, Some n4, Some tail =>
                match Byte.of_N (n1 * 4 + n2 / 16),
                      Byte.of_N ((n2 mod 16) * 16 + n3 / 4),
                      Byte.of_N ((n3 mod 4) * 64 + n4) with
                | Some a, Some b, Some c => Some (a :: b :: c :: tail)
                | _, _, _ => None
                end
            | _, _, _ => None
            end
      | _, _ => None
      end
  | String _ _ => None
  end%N.

(** A reply in the documented shape of the provider. *)
Definition daily_entries : list (string * json) :=
  [ ("2024-01-05", JObj [("1. open", JStr "181.99"); ("4. close", JStr "181.18")]);
    ("2024-01-04", JObj [("1. open", JStr "182.15"); ("4. close", JStr "181.91")]) ].

Definition daily_reply : http_reply :=
  Reply 200 (Some (JObj [ ("Meta Data", JObj [("2. Symbol", JStr "AAPL")]);
                          ("Time Series (Daily)", JObj daily_entries) ])).

Section PlottedPrices.
Context {rt : Runtime}.

(** The prices handed to matplotlib: for each date of the series, in
    order, [float(time_series[date]['4. close'])]. *)
Definition plotted (time_series : json) (dates : list string)
  (close_prices : list spec_float) : Prop :=
  Forall2 (fun date price => close_price time_series date = Ret price)
    dates close_prices.

End PlottedPrices.


(** The close prices of the reference mock series, as doubles. *)
Definition mock_prices : list spec_float :=
  Eval vm_compute in
    match comprehension (close_price (rt := Reference.runtime)
                           (JObj Reference.mock_entries))
            (dict_keys Reference.mock_entries) with
    | Ret prices => prices
    | Raise _ => []
    end.

(** A ticker that matplotlib cannot typeset in the title. *)
Definition mathtext_ticker : string := "$^$".

(** * Properties *)

Ltac unfold_monad :=
  unfold try_except, bind, ret, raise, lift, gets, modify, flash, logger_error in *.

(** ** Sanity checks of the embedding *)

Example b64encode_Man :
  b64encode [Byte.x4d; Byte.x61; Byte.x6e] = "TWFu".
Proof. reflexivity. Qed.

Example b64encode_Ma : b64encode [Byte.x4d; Byte.x61] = "TWE=".
Proof. reflexivity. Qed.

Example b64encode_M : b64encode [Byte.x4d] = "TQ==".
Proof. reflexivity. Qed.

Example float_of_int_3 : float_of_int 3 = Ret (S754_finite false 6755399441055744 (-51)).
Proof. reflexivity. Qed.

(** ** The market data provider *)

Section ProviderFacts.
Context {data_py : DataModule}.

Lemma get_stock_data_no_reply w ticker st reason :
  network w (stock_url w ticker) = NoReply reason ->
  get_stock_data w ticker st =
    (Ret (get_mock_stock_data ticker),
     add_event (LogError ("Request failed for " ++ ticker ++ ": ")%string
                  (Some (TransportError reason)))
       (add_event (HttpGet (stock_url w ticker)) st)).
Proof.
  intros Hnet. unfold get_stock_data, requests_get. unfold_monad.
  rewrite Hnet. reflexivity.
Qed.

Lemma get_stock_data_http_error w ticker st status body :
  network w (stock_url w ticker) = Reply status body ->
  is_http_error status = true ->
  get_stock_data w ticker st =
    (Ret (get_mock_stock_data ticker),
     add_event (LogError ("Request failed for " ++ ticker ++ ": ")%string
                  (Some (HTTPError status)))
       (add_event (HttpGet (stock_url w ticker)) st)).
Proof.
  intros Hnet Hst. unfold get_stock_data, requests_get, raise_for_status.
  unfold_monad. rewrite Hnet. unfold is_http_error in Hst.
  destruct body; cbn; rewrite Hst; reflexivity.
Qed.

Lemma get_stock_data_not_json w ticker st status :
  network w (stock_url w ticker) = Reply status None ->
  is_http_error status = false ->
  get_stock_data w ticker st =
    (Ret (get_mock_stock_data ticker),
     add_event (LogError ("Request failed for " ++ ticker ++ ": ")%string
                  (Some JSONDecodeError))
       (add_event (HttpGet (stock_url w ticker)) st)).
Proof.
  intros Hnet Hst. unfold get_stock_data, requests_get, raise_for_status.
  unfold_monad. rewrite Hnet. cbn. unfold is_http_error in Hst. rewrite Hst.
  reflexivity.
Qed.

(** What [get_stock_data] does with a parsed JSON object. *)
Lemma get_stock_data_object w ticker st status kvs :
  network w (stock_url w ticker) = Reply status (Some (JObj kvs)) ->
  is_http_error status = false ->
  get_stock_data w ticker st =
    let st1 := add_event (HttpGet (stock_url w ticker)) st in
    if dict_has "Error Message" kvs then
      (Ret (get_mock_stock_data ticker),
       add_event (LogError ("Error retrieving data for " ++ ticker)%string None) st1)
    else
      match dict_lookup "Time Series (Daily)" kvs with
      | None => (Ret (get_mock_stock_data ticker), st1)
      | Some time_series =>
          if truthy time_series then (Ret time_series, st1)
          else (Ret (get_mock_stock_data ticker), st1)
      end.
Proof.
  intros Hnet Hst. unfold get_stock_data, requests_get, raise_for_status.
  unfold_monad. rewrite Hnet. cbn. unfold is_http_error in Hst. rewrite Hst.
  cbn. destruct (dict_has "Error Message" kvs); [reflexivity|].
  destruct (dict_lookup "Time Series (Daily)" kvs) as [v|]; cbn; [|reflexivity].
  destruct (truthy v); reflexivity.
Qed.

(** What [get_stock_data] does when [response.json()] raises something
    else than its decoding error. *)
Lemma get_stock_data_broken w ticker st status fault :
  network w (stock_url w ticker) = BrokenReply status fault ->
  get_stock_data w ticker st =
    let st1 := add_event (HttpGet (stock_url w ticker)) st in
    if is_http_error status then
      (Ret (get_mock_stock_data ticker),
       add_event (LogError ("Request failed for " ++ ticker ++ ": ")%string
                    (Some (HTTPError status))) st1)
    else if is_RequestException fault then
      (Ret (get_mock_stock_data ticker),
       add_event (LogError ("Request failed for " ++ ticker ++ ": ")%string
                    (Some fault)) st1)
    else (Raise fault, st1).
Proof.
  intros Hnet. unfold get_stock_data, requests_get, raise_for_status,
    response_json, is_http_error.
  unfold_monad. rewrite Hnet. cbn.
  destruct ((400 <=? status)%Z && (status <? 600)%Z); cbn; [reflexivity|].
  destruct (is_RequestException fault); reflexivity.
Qed.

End ProviderFacts.

Section ProviderClaims.
Context {data_py : DataModule}.

(** Where the fallback does hold: whenever the external request fails
    (no reply, an error status, a body that is not JSON) or the reply
    parses to a JSON object, [get_stock_data] returns without raising,
    what it returns is non-empty provided the mock series of the ticker
    is, and every failure of the request resolves to the mock series. *)
Theorem get_stock_data_returns_nonempty (w : world) (ticker : string) (st : state) :
  truthy (get_mock_stock_data ticker) = true ->
  request_failed (network w (stock_url w ticker))
  || object_reply (network w (stock_url w ticker)) = true ->
  exists v st',
    get_stock_data w ticker st = (Ret v, st')
    /\ truthy v = true
    /\ (request_failed (network w (stock_url w ticker)) = true ->
        v = get_mock_stock_data ticker).
Proof.
  intros Hmock Hreply.
  destruct (network w (stock_url w ticker)) as [reason|status body|status fault]
    eqn:Hnet.
  3:{ cbn in Hreply. rewrite orb_false_r in Hreply.
      rewrite (get_stock_data_broken _ _ _ _ _ Hnet). cbn zeta. rewrite Hreply.
      eexists; eexists. auto. }
  - eexists; eexists. rewrite (get_stock_data_no_reply _ _ _ _ Hnet). auto.
  - destruct (is_http_error status) eqn:Hst.
    + eexists; eexists. rewrite (get_stock_data_http_error _ _ _ _ _ Hnet Hst). auto.
    + destruct body as [data|].
      * cbn in Hreply. rewrite Hst in Hreply. cbn in Hreply.
        destruct data; try discriminate.
        rewrite (get_stock_data_object _ _ _ _ _ Hnet Hst). cbn zeta.
        cbn [request_failed]. rewrite Hst. cbn [orb].
        destruct (dict_has "Error Message" kvs).
        { eexists; eexists. split; [reflexivity|]. split; [assumption|discriminate]. }
        destruct (dict_lookup "Time Series (Daily)" kvs) as [v|].
        { destruct (truthy v) eqn:Hv; eexists; eexists;
            (split; [reflexivity|]); (split; [assumption|discriminate]). }
        { eexists; eexists. split; [reflexivity|]. split; [assumption|discriminate]. }
      * eexists; eexists. rewrite (get_stock_data_not_json _ _ _ _ Hnet Hst). auto.
Qed.

(** C6, amended.  On a reply that parses to a JSON object:
    with an ['Error Message'] field, [get_stock_data] logs an error and
    returns the mock series; without it, and with the
    ['Time Series (Daily)'] field missing or empty (falsy), it returns
    the mock series and logs nothing; in every other case it returns the
    value of that field as it was parsed. *)
Theorem get_stock_data_fallback_policy
  (w : world) (ticker : string) (st : state) (status : Z)
  (kvs : list (string * json)) :
  network w (stock_url w ticker) = Reply status (Some (JObj kvs)) ->
  is_http_error status = false ->
  let st1 := add_event (HttpGet (stock_url w ticker)) st in
  (dict_has "Error Message" kvs = true ->
   get_stock_data w ticker st =
     (Ret (get_mock_stock_data ticker),
      add_event (LogError ("Error retrieving data for " ++ ticker)%string None) st1))
  /\ (dict_has "Error Message" kvs = false ->
      dict_lookup "Time Series (Daily)" kvs = None
      \/ (exists v, dict_lookup "Time Series (Daily)" kvs = Some v
                    /\ truthy v = false) ->
      get_stock_data w ticker st = (Ret (get_mock_stock_data ticker), st1))
  /\ (dict_has "Error Message" kvs = false ->
      forall v, dict_lookup "Time Series (Daily)" kvs = Some v ->
                truthy v = true ->
                get_stock_data w ticker st = (Ret v, st1)).
Proof.
  intros Hnet Hst st1.
  pose proof (get_stock_data_object w ticker st status kvs Hnet Hst) as H.
  cbn zeta in H. fold st1 in H. rewrite H. clear H.
  repeat split.
  - intros ->. reflexivity.
  - intros -> [-> | [v [-> Hv]]]; [reflexivity|]. rewrite Hv. reflexivity.
  - intros -> v -> ->. reflexivity.
Qed.

End ProviderClaims.

(** The closed statements below are run on the reference runtime. *)
#[local] Existing Instances Reference.runtime Reference.data_py.

Lemma get_stock_data_returns_nonempty_witness :
  let w := world_of (NoReply "timed out") in
  truthy (get_mock_stock_data "") = true
  /\ request_failed (network w (stock_url w ""))
     || object_reply (network w (stock_url w "")) = true
  /\ exists v st',
       get_stock_data w "" state0 = (Ret v, st')
       /\ truthy v = true
       /\ (request_failed (network w (stock_url w "")) = true ->
           v = get_mock_stock_data "").
Proof.
  split; [reflexivity|]. split; [reflexivity|].
  apply (get_stock_data_returns_nonempty
           (world_of (NoReply "timed out")) "" state0); reflexivity.
Defined.

(** C1.  The claim fails at this input: the provider answers with
    status 200 and the JSON body [null]; ['Error Message' in data] raises
    [TypeError], which is not a [RequestException], so no fallback to the
    mock series happens and the exception leaves [get_stock_data]. *)
Lemma get_stock_data_raises_on_null :
  fst (get_stock_data (world_of null_reply) "AAPL" state0) = Raise TypeError.
Proof. reflexivity. Qed.

Lemma get_stock_data_fallback_policy_witness :
  let w := world_of empty_series_reply in
  network w (stock_url w "AAPL")
    = Reply 200 (Some (JObj [("Time Series (Daily)", JObj [])]))
  /\ is_http_error 200 = false
  /\ get_stock_data w "AAPL" state0 =
       (Ret (get_mock_stock_data "AAPL"),
        add_event (HttpGet (stock_url w "AAPL")) state0).
Proof.
  split; [reflexivity|]. split; [reflexivity|].
  destruct (get_stock_data_fallback_policy
              (world_of empty_series_reply) "AAPL" state0 200
              [("Time Series (Daily)", JObj [])] eq_refl eq_refl)
    as [_ [Hmissing _]].
  apply Hmissing; [reflexivity|].
  right. exists (JObj []). split; reflexivity.
Defined.

(** C6 as stated fails: the field ['Time Series (Daily)'] is present and
    holds the empty series, yet that series is not returned: the mock
    series is. *)
Lemma get_stock_data_empty_series_not_verbatim :
  fst (get_stock_data (world_of empty_series_reply) "AAPL" state0)
    = Ret (get_mock_stock_data "AAPL")
  /\ get_mock_stock_data "AAPL" <> JObj [].
Proof. split; [reflexivity | discriminate]. Qed.

(** ** Lists, dicts and comprehensions *)

Lemma dict_lookup_in {V : Type} (k : string) (d : list (string * V)) (v : V) :
  dict_lookup k d = Some v -> In (k, v) d.
Proof.
  induction d as [|[k' v'] rest IH]; cbn; [discriminate|].
  destruct (String.eqb k' k) eqn:Hk.
  - intros [= ->]. apply String.eqb_eq in Hk. subst. now left.
  - intros H. right. now apply IH.
Qed.

Lemma dict_lookup_key {V : Type} (k : string) (d : list (string * V)) :
  In k (dict_keys d) -> exists v, dict_lookup k d = Some v.
Proof.
  unfold dict_keys. induction d as [|[k' v'] rest IH]; cbn; [tauto|].
  intros [-> | Hin].
  - rewrite String.eqb_refl. eauto.
  - destruct (String.eqb k' k); eauto.
Qed.

Lemma comprehension_all {A B : Type} (f : A -> result B) (l : list A) :
  (forall x, In x l -> exists y, f x = Ret y) ->
  exists ys, comprehension f l = Ret ys /\ length ys = length l.
Proof.
  induction l as [|x rest IH]; cbn; intros Hall.
  - exists []. auto.
  - destruct (Hall x (or_introl eq_refl)) as [y ->].
    destruct IH as [ys [-> Hlen]]; [intros; apply Hall; now right|].
    exists (y :: ys). cbn. auto.
Qed.

Lemma comprehension_Forall2 {A B : Type} (f : A -> result B) (l : list A) ys :
  comprehension f l = Ret ys <-> Forall2 (fun x y => f x = Ret y) l ys.
Proof.
  revert ys. induction l as [|x rest IH]; intros ys; cbn.
  - split; [intros [= <-]; constructor | intros H; inversion H; reflexivity].
  - split.
    + destruct (f x) as [y|] eqn:Hx; [|discriminate].
      destruct (comprehension f rest) as [zs|] eqn:Hrest; [|discriminate].
      intros [= <-]. constructor; [exact Hx | now apply IH].
    + intros H. inversion H as [|? y ? zs Hx Hrest]; subst.
      rewrite Hx. apply IH in Hrest. now rewrite Hrest.
Qed.

Lemma comprehension_some_raise {A B : Type} (f : A -> result B) (l : list A)
  (x : A) (e : exn) :
  In x l -> f x = Raise e -> exists e', comprehension f l = Raise e'.
Proof.
  induction l as [|a rest IH]; cbn; [tauto|].
  intros [-> | Hin] Hx.
  - rewrite Hx. eauto.
  - destruct (f a); [|eauto].
    destruct (IH Hin Hx) as [e' ->]. eauto.
Qed.

(** When every failure is the same exception, that exception is the one
    raised. *)
Lemma comprehension_raise_only {A B : Type} (f : A -> result B) (l : list A)
  (e0 e : exn) :
  (forall x e', In x l -> f x = Raise e' -> e' = e0) ->
  comprehension f l = Raise e -> e = e0.
Proof.
  induction l as [|a rest IH]; cbn; [discriminate|].
  intros Hall. destruct (f a) eqn:Ha.
  - destruct (comprehension f rest) eqn:Hrest; [discriminate|].
    intros [= <-]. apply IH; [|reflexivity]. intros; eapply Hall; eauto.
  - intros [= <-]. eapply Hall; eauto.
Qed.

Lemma prefix_append (p s : string) : String.prefix p (p ++ s) = true.
Proof.
  induction p as [|a p IH]; cbn.
  - now destruct s.
  - destruct (ascii_dec a a) as [_|Hne]; [exact IH | now elim Hne].
Qed.

(** ** Flask-Login and routing *)

Lemma login_required_authenticated req view st u :
  get_current_user st = Some u -> login_required req view st = view u st.
Proof.
  intros H. unfold login_required, current_user. unfold_monad. now rewrite H.
Qed.

Lemma login_required_anonymous req view st :
  get_current_user st = None -> login_required req view st = unauthorized req st.
Proof.
  intros H. unfold login_required, current_user. unfold_monad. now rewrite H.
Qed.

Lemma is_submitted_POST req : is_submitted req = true -> method req = POST.
Proof. unfold is_submitted. now destruct (method req). Qed.

(** ** The chart renderer and the stock tracker page *)

Section ChartFacts.
Context {rt : Runtime}.

Lemma close_price_chartable kvs date :
  chartable (JObj kvs) = true ->
  In date (dict_keys kvs) ->
  exists f, close_price (JObj kvs) date = Ret f.
Proof.
  cbn. intros Hall Hin.
  destruct (dict_lookup_key _ _ Hin) as [entry Hentry].
  pose proof (dict_lookup_in _ _ _ Hentry) as Hmem.
  rewrite forallb_forall in Hall. specialize (Hall _ Hmem). cbn in Hall.
  unfold close_price. cbn. rewrite Hentry.
  unfold close_parses in Hall.
  destruct (py_getitem "4. close" entry) as [close|]; [|discriminate].
  destruct (py_float close) as [f|]; [eauto|discriminate].
Qed.

Lemma create_stock_graph_chartable ticker kvs :
  chartable (JObj kvs) = true ->
  exists close_prices,
    plotted (JObj kvs) (dict_keys kvs) close_prices
    /\ create_stock_graph ticker (JObj kvs) =
         match savefig ("Stock Prices for " ++ ticker)%string (dict_keys kvs)
                 close_prices with
         | Ret png => Ret (data_uri_prefix ++ b64encode png)%string
         | Raise e => Raise e
         end.
Proof.
  intros Hall.
  destruct (comprehension_all (close_price (JObj kvs)) (dict_keys kvs))
    as [prices [Hprices _]].
  { intros date Hin. now apply close_price_chartable. }
  exists prices. split.
  - now apply comprehension_Forall2.
  - unfold create_stock_graph. cbn [py_keys]. rewrite Hprices.
    destruct (savefig _ _ prices); reflexivity.
Qed.

Lemma create_stock_graph_plotted ticker kvs close_prices :
  plotted (JObj kvs) (dict_keys kvs) close_prices ->
  create_stock_graph ticker (JObj kvs) =
    match savefig ("Stock Prices for " ++ ticker)%string (dict_keys kvs)
            close_prices with
    | Ret png => Ret (data_uri_prefix ++ b64encode png)%string
    | Raise e => Raise e
    end.
Proof.
  intros Hplot. apply comprehension_Forall2 in Hplot.
  unfold create_stock_graph. cbn [py_keys]. rewrite Hplot.
  destruct (savefig _ _ close_prices); reflexivity.
Qed.

(** What [create_stock_graph] has done when it returns. *)
Lemma create_stock_graph_returned ticker kvs url :
  create_stock_graph ticker (JObj kvs) = Ret url ->
  exists close_prices png,
    plotted (JObj kvs) (dict_keys kvs) close_prices
    /\ savefig ("Stock Prices for " ++ ticker)%string (dict_keys kvs) close_prices
         = Ret png
    /\ url = (data_uri_prefix ++ b64encode png)%string.
Proof.
  unfold create_stock_graph. cbn [py_keys].
  destruct (comprehension (close_price (JObj kvs)) (dict_keys kvs))
    as [prices|] eqn:Hprices; [|discriminate].
  destruct (savefig _ _ prices) as [png|] eqn:Hpng; [|discriminate].
  intros [= <-]. exists prices, png.
  split; [now apply comprehension_Forall2 | auto].
Qed.

Lemma create_stock_graph_malformed ticker kvs date entry close e0 :
  dict_lookup date kvs = Some entry ->
  py_getitem "4. close" entry = Ret close ->
  py_float close = Raise e0 ->
  exists e,
    create_stock_graph ticker (JObj kvs) = Raise e
    /\ ((forall d en, dict_lookup d kvs = Some en ->
                      exists s, py_getitem "4. close" en = Ret (JStr s)) ->
        e = ValueError).
Proof.
  intros Hentry Hclose Hfloat.
  assert (Hin : In date (dict_keys kvs)).
  { apply dict_lookup_in in Hentry. unfold dict_keys.
    change date with (fst (date, entry)). now apply in_map. }
  assert (Hbad : close_price (JObj kvs) date = Raise e0).
  { unfold close_price. cbn. now rewrite Hentry, Hclose. }
  destruct (comprehension_some_raise _ _ _ _ Hin Hbad) as [e He].
  exists e. split.
  - unfold create_stock_graph. cbn. now rewrite He.
  - intros Hshape. eapply comprehension_raise_only; [|exact He].
    intros d e' Hd. unfold close_price. cbn.
    destruct (dict_lookup_key _ _ Hd) as [en Hen]. rewrite Hen.
    destruct (Hshape _ _ Hen) as [s ->]. cbn.
    destruct (float_of_string s); congruence.
Qed.

Context {data_py : DataModule}.

(** The stock tracker once the form is valid and the series is there. *)
Lemma stock_tracker_with_series w req st ticker series st1 :
  valid_stock_form req ticker ->
  get_stock_data w ticker st = (Ret series, st1) ->
  truthy series = true ->
  stock_tracker w req st =
    match create_stock_graph ticker series with
    | Ret url =>
        (Ret (render_template
                (stock_tracker_html (StockForm_validate req) (Some series)
                   (Some url) (Some ticker))), st1)
    | Raise e => (Raise e, st1)
    end.
Proof.
  intros [Hvalid Hticker] Hdata Htruthy.
  unfold stock_tracker. rewrite Hvalid, Hticker. cbn [str_data].
  unfold_monad. rewrite Hdata, Htruthy.
  destruct (create_stock_graph ticker series); reflexivity.
Qed.

Lemma dispatch_stock_tracker w req st u :
  path req = "/stock_tracker" ->
  is_submitted req = true ->
  get_current_user st = Some u ->
  full_dispatch_request w req st =
    match stock_tracker w req st with
    | (Ret r, st') => (r, st')
    | (Raise _, st') => (internal_error, st')
    end.
Proof.
  intros Hpath Hsub Hu. unfold full_dispatch_request. rewrite Hpath.
  change (dict_lookup "/stock_tracker" url_map)
    with (Some (StockTracker, [GET; POST])).
  rewrite (is_submitted_POST _ Hsub). cbn [existsb method_eqb orb].
  unfold view_function.
  now rewrite (login_required_authenticated _ _ _ _ Hu).
Qed.

Lemma get_stock_data_request_failed w ticker st :
  request_failed (network w (stock_url w ticker)) = true ->
  exists st',
    get_stock_data w ticker st = (Ret (get_mock_stock_data ticker), st')
    /\ flashes st' = flashes st
    /\ users st' = users st
    /\ session st' = session st.
Proof.
  intros Hfail.
  destruct (network w (stock_url w ticker)) as [reason|status body|status fault]
    eqn:Hnet.
  3:{ cbn in Hfail. rewrite (get_stock_data_broken _ _ _ _ _ Hnet). cbn zeta.
      rewrite Hfail. eexists; eauto. }
  - rewrite (get_stock_data_no_reply _ _ _ _ Hnet). eexists; eauto.
  - destruct (is_http_error status) eqn:Hst.
    + rewrite (get_stock_data_http_error _ _ _ _ _ Hnet Hst). eexists; eauto.
    + cbn in Hfail. rewrite Hst in Hfail. destruct body; [discriminate|].
      rewrite (get_stock_data_not_json _ _ _ _ Hnet Hst). eexists; eauto.
Qed.

(** Whatever the provider answers, [get_stock_data] touches neither the
    flashed messages nor the session nor the user table, and a series it
    returns is non-empty when the mock series is. *)
Lemma get_stock_data_frame w ticker st :
  flashes (snd (get_stock_data w ticker st)) = flashes st
  /\ users (snd (get_stock_data w ticker st)) = users st
  /\ session (snd (get_stock_data w ticker st)) = session st
  /\ (truthy (get_mock_stock_data ticker) = true ->
      forall v, fst (get_stock_data w ticker st) = Ret v -> truthy v = true).
Proof.
  destruct (network w (stock_url w ticker)) as [reason|status body|status fault]
    eqn:Hnet.
  3:{ rewrite (get_stock_data_broken _ _ _ _ _ Hnet). cbn zeta.
      destruct (is_http_error status); [|destruct (is_RequestException fault)];
        cbn; repeat split; intros Hmock v Hv;
        first [now injection Hv as <- | discriminate Hv]. }
  all: unfold get_stock_data, requests_get, raise_for_status, response_json;
    unfold_monad; rewrite Hnet; cbn.
  { repeat split. now intros Hmock v [= <-]. }
  destruct body as [data|]; cbn.
  2:{ destruct ((400 <=? status)%Z && (status <? 600)%Z); cbn;
        repeat split; now intros Hmock v [= <-]. }
  destruct ((400 <=? status)%Z && (status <? 600)%Z); cbn.
  { repeat split. now intros Hmock v [= <-]. }
  destruct data; cbn;
    try (repeat split; intros Hmock v Hv; discriminate Hv).
  - destruct (is_substring "Error Message" s); cbn; repeat split;
      intros Hmock v Hv; [now injection Hv as <- | discriminate Hv].
  - destruct (existsb _ items); cbn; repeat split;
      intros Hmock v Hv; [now injection Hv as <- | discriminate Hv].
  - destruct (dict_has "Error Message" kvs); cbn.
    { repeat split. now intros Hmock v [= <-]. }
    destruct (dict_lookup "Time Series (Daily)" kvs) as [series|]; cbn.
    + destruct (truthy series) eqn:Hseries; cbn; repeat split;
        intros Hmock v [= <-]; assumption.
    + repeat split. now intros Hmock v [= <-].
Qed.

(** With a non-empty mock series the warning of [stock_tracker] is out
    of reach: no provider answer makes the view flash it. *)
Lemma stock_tracker_never_flashes w req st :
  (forall ticker, truthy (get_mock_stock_data ticker) = true) ->
  flashes (snd (stock_tracker w req st)) = flashes st.
Proof.
  intros Hmock. unfold stock_tracker.
  destruct (is_submitted req && no_errors (StockForm_validate req));
    [|reflexivity].
  set (ticker := str_data (field_data "ticker" req)).
  destruct (get_stock_data_frame w ticker st) as (Hflash & _ & _ & Htruthy).
  specialize (Htruthy (Hmock ticker)).
  unfold_monad.
  destruct (get_stock_data w ticker st) as [[series|e] st1]; cbn in *;
    [|exact Hflash].
  rewrite (Htruthy series eq_refl).
  destruct (create_stock_graph ticker series); exact Hflash.
Qed.

End ChartFacts.

Section ChartClaims.
Context {rt : Runtime} {data_py : DataModule}.

(** C7, amended.  For every series in which every close value parses as
    a float, there are close prices to plot: the floats of the close
    values, date by date in the order of the series.  When matplotlib
    renders them, [create_stock_graph] returns a non-empty string, the
    prefix [data:image/png;base64,] followed by the base64 encoding of
    the rendered PNG; when matplotlib raises, [create_stock_graph]
    raises the same exception. *)
Theorem create_stock_graph_data_uri (ticker : string) (kvs : list (string * json)) :
  chartable (JObj kvs) = true ->
  (exists close_prices, plotted (JObj kvs) (dict_keys kvs) close_prices)
  /\ forall close_prices,
       plotted (JObj kvs) (dict_keys kvs) close_prices ->
       (forall png,
          savefig ("Stock Prices for " ++ ticker)%string (dict_keys kvs)
            close_prices = Ret png ->
          create_stock_graph ticker (JObj kvs)
            = Ret ("data:image/png;base64," ++ b64encode png)%string
          /\ String.prefix "data:image/png;base64,"
               ("data:image/png;base64," ++ b64encode png) = true
          /\ ("data:image/png;base64," ++ b64encode png)%string <> "")
       /\ (forall e,
             savefig ("Stock Prices for " ++ ticker)%string (dict_keys kvs)
               close_prices = Raise e ->
             create_stock_graph ticker (JObj kvs) = Raise e).
Proof.
  intros Hall. split.
  - destruct (create_stock_graph_chartable ticker kvs Hall) as [prices [Hplot _]].
    eauto.
  - intros prices Hplot.
    pose proof (create_stock_graph_plotted ticker kvs prices Hplot) as Hurl.
    split.
    + intros png Hpng. rewrite Hpng in Hurl.
      split; [exact Hurl|]. split; [apply prefix_append | discriminate].
    + intros e He. now rewrite He in Hurl.
Qed.

(** C2, amended.  For every series containing a close value that does
    not parse as a float, [create_stock_graph] raises and produces no
    image ([ValueError] when the close values are strings); the error is
    delivered to [stock_tracker], which does not recover from it: the
    view raises the same exception, the stock-tracker page is not
    rendered, and the request is answered by the handler of internal
    errors with status 500. *)
Theorem malformed_series_propagates
  (w : world) (req : request) (st st1 : state) (ticker : string)
  (kvs : list (string * json)) (date : string) (entry close : json) (e0 : exn) :
  valid_stock_form req ticker ->
  get_stock_data w ticker st = (Ret (JObj kvs), st1) ->
  dict_lookup date kvs = Some entry ->
  py_getitem "4. close" entry = Ret close ->
  py_float close = Raise e0 ->
  exists e,
    create_stock_graph ticker (JObj kvs) = Raise e
    /\ stock_tracker w req st = (Raise e, st1)
    /\ (forall u, path req = "/stock_tracker" -> get_current_user st = Some u ->
                  full_dispatch_request w req st = (Rendered error_500_html 500, st1))
    /\ ((forall d en, dict_lookup d kvs = Some en ->
                      exists s, py_getitem "4. close" en = Ret (JStr s)) ->
        e = ValueError).
Proof.
  intros Hform Hdata Hentry Hclose Hfloat.
  destruct (create_stock_graph_malformed ticker kvs date entry close e0
              Hentry Hclose Hfloat) as [e [Hgraph Hvalue]].
  assert (Htruthy : truthy (JObj kvs) = true).
  { destruct kvs; [discriminate Hentry | reflexivity]. }
  pose proof (stock_tracker_with_series w req st ticker _ st1 Hform Hdata Htruthy)
    as Hview.
  rewrite Hgraph in Hview.
  exists e. repeat split; try assumption.
  intros u Hpath Hu. destruct Hform as [Hvalid _].
  apply andb_prop in Hvalid. destruct Hvalid as [Hsub _].
  rewrite (dispatch_stock_tracker w req st u Hpath Hsub Hu), Hview. reflexivity.
Qed.

(** C3, as the code behaves.  On a POST to /stock_tracker with a valid
    ticker while the external request fails, nothing is flashed:
    [get_stock_data] has already replaced the failure by the non-empty
    mock series, so the branch that flashes the warning is not taken.
    Whenever the view renders the page, it is the page with the mock
    series and its chart, status 200. *)
Theorem stock_tracker_provider_failure_no_flash
  (w : world) (req : request) (st : state) (ticker : string) :
  valid_stock_form req ticker ->
  request_failed (network w (stock_url w ticker)) = true ->
  truthy (get_mock_stock_data ticker) = true ->
  flashes (snd (stock_tracker w req st)) = flashes st
  /\ forall r,
       fst (stock_tracker w req st) = Ret r ->
       exists url,
         create_stock_graph ticker (get_mock_stock_data ticker) = Ret url
         /\ r = Rendered (stock_tracker_html (StockForm_validate req)
                           (Some (get_mock_stock_data ticker)) (Some url)
                           (Some ticker)) 200.
Proof.
  intros Hform Hfail Htruthy.
  destruct (get_stock_data_request_failed w ticker st Hfail)
    as [st' [Hdata [Hflash _]]].
  rewrite (stock_tracker_with_series w req st ticker _ st' Hform Hdata Htruthy).
  destruct (create_stock_graph ticker (get_mock_stock_data ticker)) as [url|e];
    cbn [fst snd].
  - split; [exact Hflash|]. intros r [= <-]. exists url. auto.
  - split; [exact Hflash|]. intros r Hr. discriminate Hr.
Qed.

End ChartClaims.

Lemma mock_prices_plotted :
  plotted (JObj Reference.mock_entries) (dict_keys Reference.mock_entries)
    mock_prices.
Proof. apply comprehension_Forall2. reflexivity. Defined.

Lemma create_stock_graph_data_uri_witness :
  chartable (JObj Reference.mock_entries) = true
  /\ plotted (JObj Reference.mock_entries) (dict_keys Reference.mock_entries)
       mock_prices
  /\ exists png,
       savefig ("Stock Prices for " ++ "AAPL")%string
         (dict_keys Reference.mock_entries) mock_prices = Ret png
       /\ create_stock_graph "AAPL" (JObj Reference.mock_entries)
            = Ret ("data:image/png;base64," ++ b64encode png)%string
       /\ String.prefix "data:image/png;base64,"
            ("data:image/png;base64," ++ b64encode png) = true
       /\ ("data:image/png;base64," ++ b64encode png)%string <> "".
Proof.
  split; [reflexivity|]. split; [exact mock_prices_plotted|].
  eexists. split; [reflexivity|].
  exact (proj1 (proj2 (create_stock_graph_data_uri "AAPL" Reference.mock_entries
                         eq_refl)
                  mock_prices mock_prices_plotted)
           _ eq_refl).
Defined.

(** C7 as stated fails: every close value of the series parses as a
    float, but the title made from the ticker [$^$] is not valid
    mathtext, matplotlib raises [ValueError], and so does
    [create_stock_graph]: no string is returned. *)
Lemma create_stock_graph_raises_on_mathtext :
  chartable (JObj Reference.mock_entries) = true
  /\ create_stock_graph mathtext_ticker (JObj Reference.mock_entries)
       = Raise ValueError.
Proof. split; reflexivity. Qed.

Lemma malformed_series_propagates_witness :
  let w := world_of malformed_reply in
  let req := post_ticker "AAPL" in
  let st1 := add_event (HttpGet (stock_url w "AAPL")) state_alice in
  valid_stock_form req "AAPL"
  /\ get_stock_data w "AAPL" state_alice = (Ret (JObj malformed_entries), st1)
  /\ dict_lookup "2024-01-02" malformed_entries
       = Some (JObj [("4. close", JStr "N/A")])
  /\ py_getitem "4. close" (JObj [("4. close", JStr "N/A")]) = Ret (JStr "N/A")
  /\ py_float (JStr "N/A") = Raise ValueError
  /\ exists e,
       create_stock_graph "AAPL" (JObj malformed_entries) = Raise e
       /\ stock_tracker w req state_alice = (Raise e, st1)
       /\ (forall u, path req = "/stock_tracker" ->
                     get_current_user state_alice = Some u ->
                     full_dispatch_request w req state_alice
                       = (Rendered error_500_html 500, st1))
       /\ ((forall d en, dict_lookup d malformed_entries = Some en ->
                         exists s, py_getitem "4. close" en = Ret (JStr s)) ->
           e = ValueError).
Proof.
  assert (Hform : valid_stock_form (post_ticker "AAPL") "AAPL")
    by (split; reflexivity).
  repeat (split; [first [exact Hform | reflexivity]|]).
  exact (malformed_series_propagates
           (world_of malformed_reply) (post_ticker "AAPL") state_alice
           (add_event (HttpGet (stock_url (world_of malformed_reply) "AAPL"))
              state_alice)
           "AAPL" malformed_entries "2024-01-02"
           (JObj [("4. close", JStr "N/A")]) (JStr "N/A") ValueError
           Hform eq_refl eq_refl eq_refl eq_refl).
Defined.

(** C2 as stated fails: with a close value ["N/A"] in the series, the
    view raises [ValueError] and the request ends in the page of internal
    errors, status 500; the stock-tracker page is not rendered. *)
Lemma stock_tracker_malformed_series_is_500 :
  fst (stock_tracker (world_of malformed_reply) (post_ticker "AAPL") state_alice)
    = Raise ValueError
  /\ fst (full_dispatch_request (world_of malformed_reply) (post_ticker "AAPL")
            state_alice)
     = Rendered error_500_html 500.
Proof. split; reflexivity. Qed.

Lemma stock_tracker_provider_failure_no_flash_witness :
  let w := world_of (NoReply "timed out") in
  let req := post_ticker "AAPL" in
  valid_stock_form req "AAPL"
  /\ request_failed (network w (stock_url w "AAPL")) = true
  /\ truthy (get_mock_stock_data "AAPL") = true
  /\ flashes (snd (stock_tracker w req state_alice)) = flashes state_alice
  /\ exists r url,
       fst (stock_tracker w req state_alice) = Ret r
       /\ create_stock_graph "AAPL" (get_mock_stock_data "AAPL") = Ret url
       /\ r = Rendered (stock_tracker_html (StockForm_validate req)
                          (Some (get_mock_stock_data "AAPL")) (Some url)
                          (Some "AAPL")) 200.
Proof.
  assert (Hform : valid_stock_form (post_ticker "AAPL") "AAPL")
    by (split; reflexivity).
  pose proof (stock_tracker_provider_failure_no_flash
                (world_of (NoReply "timed out")) (post_ticker "AAPL") state_alice
                "AAPL" Hform eq_refl eq_refl) as [Hflash Hpage].
  repeat (split; [first [exact Hform | exact Hflash | reflexivity]|]).
  set (r0 := match fst (stock_tracker (world_of (NoReply "timed out"))
                          (post_ticker "AAPL") state_alice) with
             | Ret r => r
             | Raise _ => Redirect Index None
             end).
  assert (Hrun : fst (stock_tracker (world_of (NoReply "timed out"))
                        (post_ticker "AAPL") state_alice) = Ret r0)
    by reflexivity.
  destruct (Hpage r0 Hrun) as [url [Hurl Hr]].
  exists r0, url. auto.
Defined.

(** The failing input of C3 run through the application: status 200,
    the mock series on the page, and no flashed message. *)
Example stock_tracker_timeout_scenario :
  let w := world_of (NoReply "timed out") in
  let out := full_dispatch_request w (post_ticker "AAPL") state_alice in
  flashes (snd out) = []
  /\ exists form url,
       fst out = Rendered (stock_tracker_html form (Some Reference.mock_series)
                             (Some url) (Some "AAPL")) 200.
Proof. split; [reflexivity|]. eexists; eexists. reflexivity. Qed.

(** ** Sessions and credentials *)

Section AuthClaims.
Context {rt : Runtime} {data_py : DataModule}.

(** C9.  A request to a protected view (/dashboard, /profile,
    /stock_tracker, /recommendations) without an active session is
    answered by a redirect to the login page; the body of the view is not
    run: nothing is rendered or fetched, only the login message is
    flashed, and the answer is the same whatever view is wrapped. *)
Theorem protected_views_redirect_to_login
  (w : world) (ep : endpoint) (req : request) (st : state) :
  In ep protected ->
  get_current_user st = None ->
  view_function w ep req st =
    (Ret (Redirect Login (Some (path req))),
     add_flash "message" "Please log in to access this page." st)
  /\ forall view : User -> M response,
       login_required req view st =
         (Ret (Redirect Login (Some (path req))),
          add_flash "message" "Please log in to access this page." st).
Proof.
  intros Hep Hanon.
  assert (Hwrap : forall view : User -> M response,
             login_required req view st =
               (Ret (Redirect Login (Some (path req))),
                add_flash "message" "Please log in to access this page." st)).
  { intros view. now rewrite (login_required_anonymous req view st Hanon). }
  split; [|exact Hwrap].
  cbn in Hep. destruct Hep as [<- | [<- | [<- | [<- | []]]]]; cbn; apply Hwrap.
Qed.

(** C10.  While a session is active, /login and /register redirect to
    the index page at once and leave the state as it was: the form is not
    looked at, no password is checked and no user row is created. *)
Theorem authenticated_user_skips_forms
  (w : world) (req : request) (st : state) (u : User) :
  get_current_user st = Some u ->
  login req st = (Ret (Redirect Index None), st)
  /\ register w req st = (Ret (Redirect Index None), st).
Proof.
  intros Hu. unfold login, register, current_user. unfold_monad.
  rewrite Hu. split; reflexivity.
Qed.

(** C5.  A login attempt by an anonymous client with a valid form ends
    in a session for the user found under the submitted name exactly when
    that user exists and the password verifies against the stored hash.
    An unknown name and a wrong password end in the same way: the same
    redirect, the same flashed message, no session. *)
Theorem login_checks_credentials
  (req : request) (st : state) (name password : string) :
  get_current_user st = None ->
  valid_login_form req name password ->
  match query_by_username name (users st) with
  | Some u =>
      if check_password_hash (password_hash u) password then
        username u = name
        /\ fst (login req st) = Ret (Redirect Index None)
        /\ session (snd (login req st)) = Some (mkSession (id u) (remember_me req))
        /\ flashes (snd (login req st)) = flashes st
        /\ users (snd (login req st)) = users st
      else invalid_credentials st (login req st)
  | None => invalid_credentials st (login req st)
  end.
Proof.
  intros Hanon [Hvalid [Hname Hpw]].
  unfold login, current_user, check_password, login_user. unfold_monad.
  rewrite Hanon. cbn [is_authenticated]. rewrite Hvalid, Hname, Hpw.
  cbn [str_data].
  destruct (query_by_username name (users st)) as [u|] eqn:Hfind.
  - destruct (check_password_hash (password_hash u) password); cbn.
    + repeat split. unfold query_by_username in Hfind.
      apply find_some in Hfind. destruct Hfind as [_ Heq].
      now apply String.eqb_eq in Heq.
    + repeat split.
  - cbn. repeat split.
Qed.

End AuthClaims.

Lemma protected_views_redirect_to_login_witness :
  let w := world_of (NoReply "timed out") in
  let req := get_request "/dashboard" in
  In Dashboard protected
  /\ get_current_user state_anonymous = None
  /\ view_function w Dashboard req state_anonymous =
       (Ret (Redirect Login (Some "/dashboard")),
        add_flash "message" "Please log in to access this page." state_anonymous).
Proof.
  split; [now left|]. split; [reflexivity|].
  exact (proj1 (protected_views_redirect_to_login
                  (world_of (NoReply "timed out")) Dashboard
                  (get_request "/dashboard") state_anonymous
                  (or_introl eq_refl) eq_refl)).
Defined.

Lemma authenticated_user_skips_forms_witness :
  let w := world_of (NoReply "timed out") in
  get_current_user state_alice = Some alice
  /\ login (post_login "alice" "secret123") state_alice
       = (Ret (Redirect Index None), state_alice)
  /\ register w (post_register "bob" "bob@example.com" "hunter2") state_alice
       = (Ret (Redirect Index None), state_alice).
Proof.
  split; [reflexivity|]. split.
  - exact (proj1 (authenticated_user_skips_forms
                    (world_of (NoReply "timed out"))
                    (post_login "alice" "secret123") state_alice alice eq_refl)).
  - exact (proj2 (authenticated_user_skips_forms
                    (world_of (NoReply "timed out"))
                    (post_register "bob" "bob@example.com" "hunter2")
                    state_alice alice eq_refl)).
Defined.

Lemma login_checks_credentials_witness :
  let good := post_login "alice" "secret123" in
  let bad := post_login "alice" "letmein" in
  get_current_user state_anonymous = None
  /\ valid_login_form good "alice" "secret123"
  /\ valid_login_form bad "alice" "letmein"
  /\ fst (login good state_anonymous) = Ret (Redirect Index None)
  /\ session (snd (login good state_anonymous)) = Some (mkSession 1 false)
  /\ invalid_credentials state_anonymous (login bad state_anonymous).
Proof.
  assert (Hgood : valid_login_form (post_login "alice" "secret123")
                    "alice" "secret123")
    by (repeat split; reflexivity).
  assert (Hbad : valid_login_form (post_login "alice" "letmein")
                   "alice" "letmein")
    by (repeat split; reflexivity).
  pose proof (login_checks_credentials (post_login "alice" "secret123")
                state_anonymous "alice" "secret123" eq_refl Hgood) as H.
  pose proof (login_checks_credentials (post_login "alice" "letmein")
                state_anonymous "alice" "letmein" eq_refl Hbad) as H'.
  hnf in H, H'.
  split; [reflexivity|]. split; [exact Hgood|]. split; [exact Hbad|].
  split; [exact (proj1 (proj2 H))|].
  split; [exact (proj1 (proj2 (proj2 H)))|].
  exact H'.
Defined.

(** Scenario B: a wrong password for alice and an unknown name are
    refused in the same way. *)
Example login_wrong_password_and_unknown_user :
  login (post_login "alice" "letmein") state_anonymous
    = (Ret (Redirect Login None),
       add_event (CheckPassword "plain$c2FsdA$secret123" "letmein")
         (add_flash "message" "Invalid username or password" state_anonymous))
  /\ login (post_login "mallory" "letmein") state_anonymous
     = (Ret (Redirect Login None),
        add_flash "message" "Invalid username or password" state_anonymous).
Proof. split; reflexivity. Qed.

(** Scenario D: an anonymous GET of /dashboard is redirected to /login. *)
Example anonymous_dashboard_is_redirected :
  fst (full_dispatch_request (world_of (NoReply "timed out"))
         (get_request "/dashboard") state_anonymous)
    = Redirect Login (Some "/dashboard").
Proof. reflexivity. Qed.

(** ** Registration *)

Lemma query_by_username_in name rows :
  In name (map username rows) -> exists u, query_by_username name rows = Some u.
Proof.
  unfold query_by_username. induction rows as [|r rows IH]; cbn; [tauto|].
  intros [<- | Hin].
  - rewrite String.eqb_refl. eauto.
  - destruct (String.eqb (username r) name); eauto.
Qed.

Lemma query_by_email_in addr rows :
  In addr (map email rows) -> exists u, query_by_email addr rows = Some u.
Proof.
  unfold query_by_email. induction rows as [|r rows IH]; cbn; [tauto|].
  intros [<- | Hin].
  - rewrite String.eqb_refl. eauto.
  - destruct (String.eqb (email r) addr); eauto.
Qed.

Lemma store_ok_username rows name :
  store_ok rows -> In name (map username rows) -> strip_nonempty name = true.
Proof.
  intros Hok Hin. apply in_map_iff in Hin. destruct Hin as [u [<- Hu]].
  unfold store_ok in Hok. rewrite Forall_forall in Hok. now apply Hok.
Qed.

Lemma store_ok_email rows addr :
  store_ok rows -> In addr (map email rows) -> strip_nonempty addr = true.
Proof.
  intros Hok Hin. apply in_map_iff in Hin. destruct Hin as [u [<- Hu]].
  unfold store_ok in Hok. rewrite Forall_forall in Hok. now apply Hok.
Qed.

Lemma no_errors_false (errors : form_errors) name message rest :
  In (name, message :: rest) errors -> no_errors errors = false.
Proof.
  intros Hin. destruct (no_errors errors) eqn:Hno; [|reflexivity].
  unfold no_errors in Hno. rewrite forallb_forall in Hno.
  specialize (Hno _ Hin). discriminate.
Qed.

Section RegistrationFacts.
Context {rt : Runtime} {data_py : DataModule}.

(** An anonymous submission with a field in error shows the form again
    and changes nothing. *)
Lemma register_invalid w req st :
  get_current_user st = None ->
  is_submitted req = true ->
  no_errors (RegistrationForm_validate (users st) req) = false ->
  register w req st =
    (Ret (Rendered (register_html (RegistrationForm_validate (users st) req)) 200),
     st).
Proof.
  intros Hanon Hsub Hno. unfold register, current_user. unfold_monad.
  rewrite Hanon. cbn [is_authenticated]. now rewrite Hsub, Hno.
Qed.

Lemma username_taken_error rows req name :
  field_data "username" req = Some name ->
  strip_nonempty name = true ->
  In name (map username rows) ->
  field_errors "username" (RegistrationForm_validate rows req)
    = ["Please use a different username."].
Proof.
  intros Hname Hreq Hin. destruct (query_by_username_in _ _ Hin) as [u Hu].
  unfold RegistrationForm_validate, field_errors. cbn [dict_lookup String.eqb].
  cbn. rewrite Hname. unfold DataRequired, validate_username.
  rewrite Hreq. cbn [str_data]. now rewrite Hu.
Qed.

Lemma email_taken_error rows req addr :
  field_data "email" req = Some addr ->
  strip_nonempty addr = true ->
  In addr (map email rows) ->
  In "Please use a different email address."
    (field_errors "email" (RegistrationForm_validate rows req)).
Proof.
  intros Haddr Hreq Hin. destruct (query_by_email_in _ _ Hin) as [u Hu].
  unfold RegistrationForm_validate, field_errors. cbn. rewrite Haddr.
  unfold DataRequired, Email, validate_email.
  rewrite Hreq. cbn [str_data]. rewrite Hu.
  destruct (email_validator addr); cbn; auto.
Qed.

Lemma field_errors_in name message (errors : form_errors) :
  In message (field_errors name errors) ->
  exists rest first, In (name, first :: rest) errors.
Proof.
  unfold field_errors.
  destruct (dict_lookup name errors) as [l|] eqn:Hl; [|intros []].
  destruct l as [|first rest]; [intros []|]. intros _.
  apply dict_lookup_in in Hl. eauto.
Qed.

(** What a valid registration form guarantees. *)
Lemma validated_registration rows req :
  no_errors (RegistrationForm_validate rows req) = true ->
  let name := str_data (field_data "username" req) in
  let addr := str_data (field_data "email" req) in
  strip_nonempty name = true
  /\ strip_nonempty addr = true
  /\ query_by_username name rows = None
  /\ query_by_email addr rows = None.
Proof.
  unfold RegistrationForm_validate, no_errors. cbn [forallb snd].
  rewrite !andb_true_iff. intros (Hu & He & _).
  unfold DataRequired, validate_username in Hu.
  unfold DataRequired, Email, validate_email in He.
  destruct (field_data "username" req) as [name|]; [|discriminate Hu].
  destruct (field_data "email" req) as [addr|]; [|discriminate He].
  cbn [str_data] in *.
  destruct (strip_nonempty name); [|discriminate Hu].
  destruct (strip_nonempty addr); [|discriminate He].
  destruct (query_by_username name rows); [discriminate Hu|].
  destruct (email_validator addr); [|discriminate He].
  destruct (query_by_email addr rows); [discriminate He|].
  cbn. auto.
Qed.

(** After validation the unique indexes cannot be violated: the commit
    succeeds and the new row is appended. *)
Lemma register_creates_user w req st :
  get_current_user st = None ->
  is_submitted req = true ->
  no_errors (RegistrationForm_validate (users st) req) = true ->
  register w req st =
    (Ret (Redirect Login None),
     add_flash "message" "Congratulations, you are now a registered user!"
       (set_users
          (users st
           ++ [mkUser (next_id (users st))
                 (str_data (field_data "username" req))
                 (str_data (field_data "email" req))
                 (generate_password_hash (salt w)
                    (str_data (field_data "password" req)))])
          st)).
Proof.
  intros Hanon Hsub Hvalid.
  destruct (validated_registration _ _ Hvalid) as (_ & _ & Hname & Haddr).
  unfold register, current_user, db_add_commit, set_password. unfold_monad.
  rewrite Hanon. cbn [is_authenticated]. rewrite Hsub, Hvalid.
  cbn [andb username email password_hash id].
  set (name := str_data (field_data "username" req)) in *.
  set (addr := str_data (field_data "email" req)) in *.
  assert (Hfree : existsb (fun r => String.eqb (username r) name
                                    || String.eqb (email r) addr) (users st)
                  = false).
  { destruct (existsb _ (users st)) eqn:Hex; [|reflexivity].
    apply existsb_exists in Hex. destruct Hex as [r [Hr Heq]].
    apply orb_prop in Heq. destruct Heq as [Heq | Heq].
    - unfold query_by_username in Hname.
      now rewrite (find_none _ _ Hname r Hr) in Heq.
    - unfold query_by_email in Haddr.
      now rewrite (find_none _ _ Haddr r Hr) in Heq. }
  rewrite Hfree. reflexivity.
Qed.

(** Registration keeps the user table well formed. *)
Lemma register_preserves_store_ok w req st :
  store_ok (users st) -> store_ok (users (snd (register w req st))).
Proof.
  intros Hok.
  destruct (get_current_user st) as [u|] eqn:Hcu.
  - unfold register, current_user. unfold_monad. rewrite Hcu. exact Hok.
  - destruct (is_submitted req) eqn:Hsub.
    + destruct (no_errors (RegistrationForm_validate (users st) req)) eqn:Hvalid.
      * rewrite (register_creates_user w req st Hcu Hsub Hvalid). cbn.
        destruct (validated_registration _ _ Hvalid) as (Hn & Ha & _).
        unfold store_ok in *. apply Forall_app. split; [exact Hok|].
        constructor; [|constructor]. cbn. auto.
      * rewrite (register_invalid w req st Hcu Hsub Hvalid). exact Hok.
    + unfold register, current_user. unfold_monad. rewrite Hcu, Hsub. exact Hok.
Qed.

End RegistrationFacts.

Section RegistrationClaims.
Context {rt : Runtime} {data_py : DataModule}.

(** C4.  On a user table built by registrations, a registration
    submitted by an anonymous client is refused with the message of the
    duplicate username when the username is already in the table, and
    with the message of the duplicate email when the email is; in both
    cases the form is shown again and the state, the user table
    included, is unchanged. *)
Theorem register_rejects_duplicates
  (w : world) (req : request) (st : state) :
  store_ok (users st) ->
  get_current_user st = None ->
  is_submitted req = true ->
  (forall name,
     field_data "username" req = Some name ->
     In name (map username (users st)) ->
     In "Please use a different username."
        (field_errors "username" (RegistrationForm_validate (users st) req))
     /\ register w req st =
          (Ret (Rendered (register_html (RegistrationForm_validate (users st) req))
                  200), st))
  /\ (forall addr,
        field_data "email" req = Some addr ->
        In addr (map email (users st)) ->
        In "Please use a different email address."
           (field_errors "email" (RegistrationForm_validate (users st) req))
        /\ register w req st =
             (Ret (Rendered (register_html (RegistrationForm_validate (users st) req))
                     200), st)).
Proof.
  intros Hok Hanon Hsub. split.
  - intros name Hname Hin.
    pose proof (username_taken_error (users st) req name Hname
                  (store_ok_username _ _ Hok Hin) Hin) as Herr.
    assert (Hmsg : In "Please use a different username."
                     (field_errors "username"
                        (RegistrationForm_validate (users st) req)))
      by (rewrite Herr; now left).
    split; [exact Hmsg|].
    destruct (field_errors_in _ _ _ Hmsg) as [rest [first Hmem]].
    apply (register_invalid w req st Hanon Hsub).
    exact (no_errors_false _ _ _ _ Hmem).
  - intros addr Haddr Hin.
    pose proof (email_taken_error (users st) req addr Haddr
                  (store_ok_email _ _ Hok Hin) Hin) as Hmsg.
    split; [exact Hmsg|].
    destruct (field_errors_in _ _ _ Hmsg) as [rest [first Hmem]].
    apply (register_invalid w req st Hanon Hsub).
    exact (no_errors_false _ _ _ _ Hmem).
Qed.

End RegistrationClaims.

Lemma register_rejects_duplicates_witness :
  let w := world_of (NoReply "timed out") in
  let req := post_register "alice" "alice@example.com" "hunter2" in
  let errors := RegistrationForm_validate (users state_anonymous) req in
  store_ok (users state_anonymous)
  /\ get_current_user state_anonymous = None
  /\ is_submitted req = true
  /\ (field_data "username" req = Some "alice"
      /\ In "alice" (map username (users state_anonymous))
      /\ In "Please use a different username." (field_errors "username" errors)
      /\ register w req state_anonymous
           = (Ret (Rendered (register_html errors) 200), state_anonymous))
  /\ (field_data "email" req = Some "alice@example.com"
      /\ In "alice@example.com" (map email (users state_anonymous))
      /\ In "Please use a different email address." (field_errors "email" errors)
      /\ register w req state_anonymous
           = (Ret (Rendered (register_html errors) 200), state_anonymous)).
Proof.
  assert (Hok : store_ok (users state_anonymous)).
  { constructor; [|constructor]. split; reflexivity. }
  pose proof (register_rejects_duplicates
                (world_of (NoReply "timed out"))
                (post_register "alice" "alice@example.com" "hunter2")
                state_anonymous Hok eq_refl eq_refl) as [Hname Haddr].
  split; [exact Hok|]. split; [reflexivity|]. split; [reflexivity|]. split.
  - split; [reflexivity|]. split; [now left|].
    exact (Hname "alice" eq_refl (or_introl eq_refl)).
  - split; [reflexivity|]. split; [now left|].
    exact (Haddr "alice@example.com" eq_refl (or_introl eq_refl)).
Defined.

(** The same for the email of alice under a new username. *)
Example register_duplicate_email :
  let w := world_of (NoReply "timed out") in
  let req := post_register "bob" "alice@example.com" "hunter2" in
  register w req state_anonymous
    = (Ret (Rendered
              (register_html
                 [ ("username", []);
                   ("email", ["Please use a different email address."]);
                   ("password", []); ("password2", []); ("submit", []);
                   ("csrf_token", []) ]) 200),
       state_anonymous).
Proof. reflexivity. Qed.

(** Scenario A: alice registers, then logs in with the same
    credentials: a session is established and she is sent to the index
    page. *)
Example register_then_login :
  let w := world_of (NoReply "timed out") in
  let registered :=
    register w (post_register "alice" "alice@example.com" "secret123") state0 in
  fst registered = Ret (Redirect Login None)
  /\ users (snd registered) = [alice]
  /\ fst (login (post_login "alice" "secret123") (snd registered))
       = Ret (Redirect Index None)
  /\ session (snd (login (post_login "alice" "secret123") (snd registered)))
       = Some (mkSession 1 false).
Proof. repeat split. Qed.

(** * Further properties *)

(** ** Registration, beyond duplicates *)

Lemma query_by_username_none name rows :
  query_by_username name rows = None <-> ~ In name (map username rows).
Proof.
  split.
  - intros Hnone Hin. destruct (query_by_username_in _ _ Hin) as [u Hu]. congruence.
  - intros Hnot. destruct (query_by_username name rows) as [u|] eqn:Hu; [|reflexivity].
    unfold query_by_username in Hu. apply find_some in Hu. destruct Hu as [Hin Heq].
    apply String.eqb_eq in Heq. elim Hnot. subst. now apply in_map.
Qed.

Lemma query_by_email_none addr rows :
  query_by_email addr rows = None <-> ~ In addr (map email rows).
Proof.
  split.
  - intros Hnone Hin. destruct (query_by_email_in _ _ Hin) as [u Hu]. congruence.
  - intros Hnot. destruct (query_by_email addr rows) as [u|] eqn:Hu; [|reflexivity].
    unfold query_by_email in Hu. apply find_some in Hu. destruct Hu as [Hin Heq].
    apply String.eqb_eq in Heq. elim Hnot. subst. now apply in_map.
Qed.

Lemma next_id_above rows i : In i (map id rows) -> (i < next_id rows)%Z.
Proof.
  unfold next_id. induction rows as [|r rows IH]; cbn [map fold_right In];
    [tauto|].
  intros [<- | Hin]; [lia|]. specialize (IH Hin). lia.
Qed.

Section RegistrationMore.
Context {rt : Runtime} {data_py : DataModule}.

Lemma accepted_no_errors rows req name addr password :
  registration_accepted rows req name addr password ->
  no_errors (RegistrationForm_validate rows req) = true.
Proof.
  intros (Hcsrf & Hn & Hns & Hnf & Ha & Has & Hav & Haf & Hp & Hps & Hp2).
  apply query_by_username_none in Hnf. apply query_by_email_none in Haf.
  unfold RegistrationForm_validate, no_errors, csrf_token_errors.
  rewrite Hcsrf, Hn, Ha, Hp, Hp2.
  unfold DataRequired, Email, EqualTo, validate_username, validate_email.
  rewrite Hns, Has, Hps, Hav. cbn [str_data]. rewrite Hnf, Haf.
  rewrite String.eqb_refl. reflexivity.
Qed.

Lemma no_errors_accepted rows req :
  no_errors (RegistrationForm_validate rows req) = true ->
  exists name addr password, registration_accepted rows req name addr password.
Proof.
  intros Hvalid.
  destruct (validated_registration _ _ Hvalid) as (Hns & Has & Hnf & Haf).
  apply query_by_username_none in Hnf. apply query_by_email_none in Haf.
  revert Hvalid Hns Has Hnf Haf.
  unfold RegistrationForm_validate, no_errors, csrf_token_errors,
    registration_accepted.
  cbn [forallb snd]. rewrite !andb_true_iff.
  intros (_ & He & Hp & Hp2 & _ & Hc & _).
  unfold DataRequired, Email, validate_email, EqualTo in *.
  destruct (csrf_error req); [discriminate Hc|].
  destruct (field_data "username" req) as [name|];
    [|cbn; intros Hns; discriminate Hns].
  destruct (field_data "email" req) as [addr|];
    [|cbn; intros _ Has; discriminate Has].
  cbn [str_data]. intros Hns Has Hnf Haf.
  rewrite Has in He.
  destruct (email_validator addr) eqn:Hav.
  2:{ destruct (query_by_email addr rows); discriminate He. }
  destruct (field_data "password" req) as [password|]; [|discriminate Hp].
  destruct (strip_nonempty password) eqn:Hps; [|discriminate Hp].
  destruct (field_data "password2" req) as [password2|]; [|discriminate Hp2].
  destruct (strip_nonempty password2); [|discriminate Hp2].
  destruct (String.eqb password2 password) eqn:Heq; [|discriminate Hp2].
  apply String.eqb_eq in Heq. subst password2.
  exists name, addr, password. repeat split; assumption.
Qed.

(** A registration changes the state only by appending one row. *)
Lemma register_cases w req st :
  register w req st = (Ret (Redirect Index None), st)
  \/ (exists errors, register w req st = (Ret (Rendered (register_html errors) 200), st))
  \/ (get_current_user st = None
      /\ is_submitted req = true
      /\ no_errors (RegistrationForm_validate (users st) req) = true
      /\ register w req st =
           (Ret (Redirect Login None),
            add_flash "message" "Congratulations, you are now a registered user!"
              (set_users
                 (users st
                  ++ [mkUser (next_id (users st))
                        (str_data (field_data "username" req))
                        (str_data (field_data "email" req))
                        (generate_password_hash (salt w)
                           (str_data (field_data "password" req)))])
                 st))).
Proof.
  destruct (get_current_user st) as [u|] eqn:Hcu.
  - left. unfold register, current_user. unfold_monad. now rewrite Hcu.
  - destruct (is_submitted req) eqn:Hsub.
    + destruct (no_errors (RegistrationForm_validate (users st) req)) eqn:Hvalid.
      * right; right. repeat split; try reflexivity.
        now apply register_creates_user.
      * right; left. eexists. now apply register_invalid.
    + right; left. eexists. unfold register, current_user. unfold_monad.
      rewrite Hcu, Hsub. reflexivity.
Qed.

End RegistrationMore.

Lemma find_app_fresh {A : Type} (f : A -> bool) (l : list A) (x : A) :
  find f l = None -> f x = true -> find f (l ++ [x]) = Some x.
Proof.
  induction l as [|a l IH]; cbn; intros Hnone Hx.
  - now rewrite Hx.
  - destruct (f a); [discriminate|]. now apply IH.
Qed.

Lemma query_get_unique rows u :
  NoDup (map id rows) -> In u rows -> query_get (id u) rows = Some u.
Proof.
  unfold query_get. induction rows as [|r rows IH]; cbn; [tauto|].
  intros Hnodup [-> | Hin].
  - now rewrite Z.eqb_refl.
  - inversion Hnodup as [|? ? Hfresh Hrest]; subst.
    destruct (Z.eqb (id r) (id u)) eqn:Heq; [|now apply IH].
    apply Z.eqb_eq in Heq. elim Hfresh. rewrite Heq. now apply in_map.
Qed.

Lemma NoDup_app_fresh {A : Type} (l : list A) (x : A) :
  NoDup l -> ~ In x l -> NoDup (l ++ [x]).
Proof.
  intros Hl Hx. induction Hl as [|a l Ha Hl IH]; cbn.
  - constructor; [tauto | constructor].
  - constructor.
    + rewrite in_app_iff. cbn. intros [H | [H | []]]; [tauto|].
      subst. apply Hx. now left.
    + apply IH. intros H. apply Hx. now right.
Qed.

Section LoginFacts.
Context {rt : Runtime}.

Lemma login_success req st name password u :
  get_current_user st = None ->
  valid_login_form req name password ->
  query_by_username name (users st) = Some u ->
  check_password_hash (password_hash u) password = true ->
  login req st =
    (Ret (Redirect Index None),
     set_session (Some (mkSession (id u) (remember_me req)))
       (add_event (CheckPassword (password_hash u) password) st)).
Proof.
  intros Hanon (Hvalid & Hname & Hpw) Hfind Hcheck.
  unfold login, current_user, check_password, login_user. unfold_monad.
  rewrite Hanon. cbn [is_authenticated]. rewrite Hvalid, Hname, Hpw.
  cbn [str_data]. rewrite Hfind. cbn beta iota. rewrite Hcheck. reflexivity.
Qed.

End LoginFacts.

Section RegistrationExtras.
Context {rt : Runtime} {data_py : DataModule}.

Lemma register_never_raises_aux (w : world) (req : request) (st : state) :
  session (snd (register w req st)) = session st
  /\ trace (snd (register w req st)) = trace st.
Proof.
  destruct (register_cases w req st) as [H | [[errors H] | (_ & _ & _ & H)]];
    rewrite H; cbn; auto.
Qed.

(** X1.  An anonymous POST to /register that satisfies every validator
    creates exactly one row: the next primary key, the submitted username
    and email, and the hash of the submitted password; the
    congratulation is flashed and the answer is the redirect to the login
    page. *)
Theorem register_accepted_creates_user
  (w : world) (req : request) (st : state) (name addr password : string) :
  get_current_user st = None ->
  is_submitted req = true ->
  registration_accepted (users st) req name addr password ->
  register w req st =
    (Ret (Redirect Login None),
     add_flash "message" "Congratulations, you are now a registered user!"
       (set_users
          (users st
           ++ [mkUser (next_id (users st)) name addr
                 (generate_password_hash (salt w) password)])
          st)).
Proof.
  intros Hanon Hsub Hacc.
  rewrite (register_creates_user w req st Hanon Hsub (accepted_no_errors _ _ _ _ _ Hacc)).
  destruct Hacc as (_ & -> & _ & _ & -> & _ & _ & _ & -> & _).
  reflexivity.
Qed.

(** X2.  The user table changes under /register only when the client
    is anonymous, the request is a POST and every validator is satisfied:
    CSRF token accepted, username, email and password not blank, email
    well formed, both passwords equal, username and email not yet in the
    table. *)
Theorem register_changes_only_when_accepted
  (w : world) (req : request) (st : state) :
  users (snd (register w req st)) <> users st ->
  get_current_user st = None
  /\ is_submitted req = true
  /\ exists name addr password,
       registration_accepted (users st) req name addr password.
Proof.
  intros Hchanged.
  destruct (register_cases w req st) as [H | [[errors H] | (Hanon & Hsub & Hvalid & _)]].
  - rewrite H in Hchanged. now elim Hchanged.
  - rewrite H in Hchanged. now elim Hchanged.
  - split; [exact Hanon|]. split; [exact Hsub|]. now apply no_errors_accepted.
Qed.

(** X3.  [register] never raises: after validation the unique indexes
    cannot reject the commit.  It appends at most one row and leaves the
    existing rows, the session and the trace of outside calls as they
    were. *)
Theorem register_never_raises (w : world) (req : request) (st : state) :
  exists r added,
    fst (register w req st) = Ret r
    /\ users (snd (register w req st)) = users st ++ added
    /\ (length added <= 1)%nat
    /\ session (snd (register w req st)) = session st
    /\ trace (snd (register w req st)) = trace st.
Proof.
  destruct (register_cases w req st) as [H | [[errors H] | (_ & _ & _ & H)]];
    rewrite H; cbn.
  - exists (Redirect Index None), []. rewrite app_nil_r. auto.
  - eexists; exists []. rewrite app_nil_r. auto.
  - eexists; eexists. split; [reflexivity|]. split; [reflexivity|].
    split; [cbn; lia|]. split; reflexivity.
Qed.

(** Usernames, emails and primary keys stay unique: a user table
    without duplicates has none after any request to /register. *)
Theorem register_keeps_unique_store (w : world) (req : request) (st : state) :
  unique_store (users st) -> unique_store (users (snd (register w req st))).
Proof.
  intros (Hnames & Hemails & Hids).
  destruct (register_cases w req st) as [H | [[errors H] | (_ & _ & Hvalid & H)]];
    rewrite H; cbn [snd users set_users add_flash];
    try (repeat split; assumption).
  destruct (validated_registration _ _ Hvalid) as (_ & _ & Hnf & Haf).
  apply query_by_username_none in Hnf. apply query_by_email_none in Haf.
  unfold unique_store. rewrite !map_app. cbn [map username email id].
  repeat split; apply NoDup_app_fresh; try assumption.
  intros Hin. apply next_id_above in Hin. lia.
Qed.

(** X4.  Register, then log in: when the hash of a password verifies
    against that password, a client without a session who registers and
    then submits the same username and password gets a session for the
    new row and is the current user from then on. *)
Theorem register_then_login_succeeds
  (w : world) (req lreq : request) (st : state) (name addr password : string) :
  session st = None ->
  is_submitted req = true ->
  registration_accepted (users st) req name addr password ->
  check_password_hash (generate_password_hash (salt w) password) password = true ->
  valid_login_form lreq name password ->
  let new_user := mkUser (next_id (users st)) name addr
                    (generate_password_hash (salt w) password) in
  let st1 := snd (register w req st) in
  fst (login lreq st1) = Ret (Redirect Index None)
  /\ session (snd (login lreq st1))
       = Some (mkSession (next_id (users st)) (remember_me lreq))
  /\ get_current_user (snd (login lreq st1)) = Some new_user.
Proof.
  intros Hsess Hsub Hacc Hhash (Hvalid & Hname & Hpw) new_user st1.
  assert (Hanon : get_current_user st = None)
    by (unfold get_current_user; now rewrite Hsess).
  pose proof (accepted_no_errors _ _ _ _ _ Hacc) as Hok.
  assert (Hst1 : st1 =
            add_flash "message" "Congratulations, you are now a registered user!"
              (set_users (users st ++ [new_user]) st)).
  { unfold st1. rewrite (register_creates_user w req st Hanon Hsub Hok).
    destruct Hacc as (_ & -> & _ & _ & -> & _ & _ & _ & -> & _). reflexivity. }
  destruct Hacc as (_ & _ & _ & Hnf & _).
  apply query_by_username_none in Hnf.
  assert (Hfind : query_by_username name (users st ++ [new_user]) = Some new_user).
  { unfold query_by_username in *. apply find_app_fresh; [exact Hnf|].
    cbn. apply String.eqb_refl. }
  assert (Hget : query_get (next_id (users st)) (users st ++ [new_user])
                 = Some new_user).
  { unfold query_get. apply find_app_fresh; [|cbn; apply Z.eqb_refl].
    destruct (find _ (users st)) as [r|] eqn:Hr; [|reflexivity].
    apply find_some in Hr. destruct Hr as [Hin Heq]. apply Z.eqb_eq in Heq.
    pose proof (next_id_above (users st) (id r) (in_map id _ _ Hin)). lia. }
  rewrite Hst1.
  set (st2 := add_flash _ _ _).
  assert (Hanon2 : get_current_user st2 = None)
    by (unfold get_current_user; cbn; now rewrite Hsess).
  rewrite (login_success lreq st2 name password new_user Hanon2
             (conj Hvalid (conj Hname Hpw)) Hfind Hhash).
  split; [reflexivity|]. split; [reflexivity|].
  unfold get_current_user, load_user. exact Hget.
Qed.

End RegistrationExtras.

Ltac prove_accepted :=
  repeat split; try reflexivity; cbn; intros Hin;
  repeat (destruct Hin as [Hin | Hin]; [discriminate Hin|]); exact Hin.

Lemma bob_accepted :
  registration_accepted (users state_anonymous) bob_request
    "bob" "bob@example.com" "hunter2".
Proof. prove_accepted. Defined.

Lemma register_accepted_creates_user_witness :
  let w := world_of (NoReply "timed out") in
  get_current_user state_anonymous = None
  /\ is_submitted bob_request = true
  /\ registration_accepted (users state_anonymous) bob_request
       "bob" "bob@example.com" "hunter2"
  /\ register w bob_request state_anonymous =
       (Ret (Redirect Login None),
        add_flash "message" "Congratulations, you are now a registered user!"
          (set_users [alice; bob] state_anonymous)).
Proof.
  split; [reflexivity|]. split; [reflexivity|]. split; [exact bob_accepted|].
  exact (register_accepted_creates_user (world_of (NoReply "timed out"))
           bob_request state_anonymous "bob" "bob@example.com" "hunter2"
           eq_refl eq_refl bob_accepted).
Defined.

Lemma register_changes_only_when_accepted_witness :
  let w := world_of (NoReply "timed out") in
  users (snd (register w bob_request state_anonymous)) <> users state_anonymous
  /\ get_current_user state_anonymous = None
  /\ is_submitted bob_request = true
  /\ exists name addr password,
       registration_accepted (users state_anonymous) bob_request name addr password.
Proof.
  assert (Hchanged : users (snd (register (world_of (NoReply "timed out"))
                                   bob_request state_anonymous))
                     <> users state_anonymous)
    by (cbn; discriminate).
  split; [exact Hchanged|].
  exact (register_changes_only_when_accepted (world_of (NoReply "timed out"))
           bob_request state_anonymous Hchanged).
Defined.

Lemma unique_store_alice : unique_store (users state_anonymous).
Proof.
  repeat split; cbn; (constructor; [intros [] | constructor]).
Defined.

Lemma register_keeps_unique_store_witness :
  let w := world_of (NoReply "timed out") in
  unique_store (users state_anonymous)
  /\ unique_store (users (snd (register w bob_request state_anonymous))).
Proof.
  split; [exact unique_store_alice|].
  exact (register_keeps_unique_store (world_of (NoReply "timed out"))
           bob_request state_anonymous unique_store_alice).
Defined.

Lemma register_then_login_succeeds_witness :
  let w := world_of (NoReply "timed out") in
  let lreq := post_login "bob" "hunter2" in
  let st1 := snd (register w bob_request state_anonymous) in
  session state_anonymous = None
  /\ is_submitted bob_request = true
  /\ registration_accepted (users state_anonymous) bob_request
       "bob" "bob@example.com" "hunter2"
  /\ check_password_hash (generate_password_hash (salt w) "hunter2") "hunter2" = true
  /\ valid_login_form lreq "bob" "hunter2"
  /\ fst (login lreq st1) = Ret (Redirect Index None)
  /\ session (snd (login lreq st1)) = Some (mkSession 2 false)
  /\ get_current_user (snd (login lreq st1)) = Some bob.
Proof.
  assert (Hform : valid_login_form (post_login "bob" "hunter2") "bob" "hunter2")
    by (repeat split; reflexivity).
  split; [reflexivity|]. split; [reflexivity|]. split; [exact bob_accepted|].
  split; [reflexivity|]. split; [exact Hform|].
  exact (register_then_login_succeeds (world_of (NoReply "timed out"))
           bob_request (post_login "bob" "hunter2") state_anonymous
           "bob" "bob@example.com" "hunter2"
           eq_refl eq_refl bob_accepted eq_refl Hform).
Defined.

(** ** Login and logout, beyond the credential check *)

Lemma login_form_fields req :
  no_errors (LoginForm_validate req) = true ->
  exists name password,
    field_data "username" req = Some name /\ strip_nonempty name = true
    /\ field_data "password" req = Some password
    /\ strip_nonempty password = true
    /\ csrf_error req = None.
Proof.
  unfold LoginForm_validate, no_errors, csrf_token_errors. cbn [forallb snd].
  rewrite !andb_true_iff. intros (Hu & Hp & _ & _ & Hc & _).
  unfold DataRequired in *.
  destruct (field_data "username" req) as [name|]; [|discriminate Hu].
  destruct (strip_nonempty name) eqn:Hn; [|discriminate Hu].
  destruct (field_data "password" req) as [password|]; [|discriminate Hp].
  destruct (strip_nonempty password) eqn:Hpw; [|discriminate Hp].
  destruct (csrf_error req); [discriminate Hc|].
  exists name, password. auto.
Qed.

Lemma login_form_blank req :
  blank (field_data "username" req) || blank (field_data "password" req) = true ->
  no_errors (LoginForm_validate req) = false.
Proof.
  intros Hblank.
  destruct (no_errors (LoginForm_validate req)) eqn:Hvalid; [|reflexivity].
  destruct (login_form_fields req Hvalid) as (name & pw & Hn & Hns & Hp & Hps & _).
  rewrite Hn, Hp in Hblank. cbn in Hblank. rewrite Hns, Hps in Hblank.
  discriminate.
Qed.

Section LoginCases.
Context {rt : Runtime}.

Lemma login_invalid_form req st :
  get_current_user st = None ->
  is_submitted req && no_errors (LoginForm_validate req) = false ->
  login req st =
    (Ret (Rendered
            (login_html (if is_submitted req then LoginForm_validate req else []))
            200), st).
Proof.
  intros Hanon Hinvalid. unfold login, current_user. unfold_monad.
  rewrite Hanon. cbn [is_authenticated]. now rewrite Hinvalid.
Qed.

(** The four ways in which [login] ends. *)
Lemma login_cases req st :
  login req st = (Ret (Redirect Index None), st)
  \/ (exists errors, login req st = (Ret (Rendered (login_html errors) 200), st))
  \/ (exists st', login req st = (Ret (Redirect Login None), st')
                  /\ users st' = users st /\ session st' = session st
                  /\ flashes st' = flashes st
                                   ++ [("message", "Invalid username or password")])
  \/ (exists u name password,
        get_current_user st = None
        /\ valid_login_form req name password
        /\ query_by_username name (users st) = Some u
        /\ check_password_hash (password_hash u) password = true
        /\ login req st =
             (Ret (Redirect Index None),
              set_session (Some (mkSession (id u) (remember_me req)))
                (add_event (CheckPassword (password_hash u) password) st))).
Proof.
  destruct (get_current_user st) as [cu|] eqn:Hanon.
  { left. unfold login, current_user. unfold_monad. now rewrite Hanon. }
  destruct (is_submitted req && no_errors (LoginForm_validate req)) eqn:Hvalid.
  2:{ right; left. eexists. now apply login_invalid_form. }
  pose proof Hvalid as Hv. apply andb_prop in Hv. destruct Hv as [_ Hv].
  destruct (login_form_fields req Hv) as (name & pw & Hn & _ & Hp & _).
  destruct (query_by_username name (users st)) as [u|] eqn:Hfind.
  - destruct (check_password_hash (password_hash u) pw) eqn:Hcheck.
    + right; right; right. exists u, name, pw.
      repeat split; try assumption.
      apply login_success with (name := name); repeat split; assumption.
    + right; right; left. eexists.
      unfold login, current_user, check_password. unfold_monad.
      rewrite Hanon. cbn [is_authenticated]. rewrite Hvalid, Hn, Hp.
      cbn [str_data]. rewrite Hfind. cbn beta iota. rewrite Hcheck.
      cbn. auto.
  - right; right; left. eexists.
    unfold login, current_user. unfold_monad.
    rewrite Hanon. cbn [is_authenticated]. rewrite Hvalid, Hn, Hp.
    cbn [str_data]. rewrite Hfind. cbn. auto.
Qed.

End LoginCases.

Section LoginExtras.
Context {rt : Runtime} {data_py : DataModule}.

(** X5.  After a successful login the user who logged in is the current
    user, provided primary keys are unique: a protected view is then
    served to that user, here the profile page. *)
Theorem login_then_profile
  (w : world) (req preq : request) (st : state) (name password : string)
  (u : User) :
  NoDup (map id (users st)) ->
  get_current_user st = None ->
  valid_login_form req name password ->
  query_by_username name (users st) = Some u ->
  check_password_hash (password_hash u) password = true ->
  get_current_user (snd (login req st)) = Some u
  /\ view_function w Profile preq (snd (login req st)) =
       (Ret (Rendered (profile_html u (get_mock_profile u)) 200),
        snd (login req st)).
Proof.
  intros Hids Hanon Hform Hfind Hcheck.
  rewrite (login_success req st name password u Hanon Hform Hfind Hcheck).
  cbn [snd].
  assert (Hcu : get_current_user
                  (set_session (Some (mkSession (id u) (remember_me req)))
                     (add_event (CheckPassword (password_hash u) password) st))
                = Some u).
  { unfold get_current_user, load_user. cbn. apply query_get_unique; [exact Hids|].
    unfold query_by_username in Hfind. now apply find_some in Hfind. }
  split; [exact Hcu|].
  unfold view_function. now rewrite (login_required_authenticated _ _ _ _ Hcu).
Qed.

(** X6.  After [logout] nobody is logged in: the answer is the redirect
    to the index page, and every protected view then redirects to the
    login page, whoever was logged in before. *)
Theorem logout_revokes_access
  (w : world) (ep : endpoint) (req : request) (st : state) :
  In ep protected ->
  fst (logout st) = Ret (Redirect Index None)
  /\ get_current_user (snd (logout st)) = None
  /\ users (snd (logout st)) = users st
  /\ fst (view_function w ep req (snd (logout st)))
       = Ret (Redirect Login (Some (path req))).
Proof.
  intros Hep. unfold logout, logout_user. unfold_monad. cbn [fst snd].
  assert (Hanon : get_current_user (set_session None st) = None) by reflexivity.
  repeat split.
  cbn in Hep. destruct Hep as [<- | [<- | [<- | [<- | []]]]]; cbn [view_function];
    now rewrite (login_required_anonymous _ _ _ Hanon).
Qed.

(** X7.  [login] never raises and never touches the user table, and it
    changes the session only by logging in a stored user whose name was
    submitted and whose stored hash accepts the submitted password. *)
Theorem login_session_only_when_verified (req : request) (st : state) :
  (exists r, fst (login req st) = Ret r)
  /\ users (snd (login req st)) = users st
  /\ (session (snd (login req st)) <> session st ->
      exists u name password,
        field_data "username" req = Some name
        /\ field_data "password" req = Some password
        /\ csrf_error req = None
        /\ In u (users st)
        /\ username u = name
        /\ check_password_hash (password_hash u) password = true
        /\ session (snd (login req st))
             = Some (mkSession (id u) (remember_me req))).
Proof.
  destruct (login_cases req st)
    as [H | [[errors H] | [(st' & H & Hu & Hs & _)
                          | (u & name & pw & _ & Hform & Hfind & Hcheck & H)]]];
    rewrite H; cbn [fst snd].
  - split; [eauto|]. split; [reflexivity|]. intros Hne. now elim Hne.
  - split; [eauto|]. split; [reflexivity|]. intros Hne. now elim Hne.
  - split; [eauto|]. split; [exact Hu|]. intros Hne. now elim Hne.
  - split; [eauto|]. split; [reflexivity|]. intros _.
    destruct Hform as (Hvalid & Hn & Hp).
    apply andb_prop in Hvalid. destruct Hvalid as [_ Hvalid].
    destruct (login_form_fields req Hvalid) as (_ & _ & _ & _ & _ & _ & Hcsrf).
    unfold query_by_username in Hfind. apply find_some in Hfind.
    destruct Hfind as [Hin Heq]. apply String.eqb_eq in Heq.
    exists u, name, pw. repeat split; assumption.
Qed.

(** X8.  A login form with a blank username or password (missing, empty
    or white space only) is shown again: no user is looked up, no
    password is checked, nothing is flashed, and the state is unchanged. *)
Theorem login_blank_field_is_redisplayed (req : request) (st : state) :
  get_current_user st = None ->
  is_submitted req = true ->
  blank (field_data "username" req) || blank (field_data "password" req) = true ->
  login req st = (Ret (Rendered (login_html (LoginForm_validate req)) 200), st)
  /\ (blank (field_data "username" req) = true ->
      field_errors "username" (LoginForm_validate req) = ["This field is required."])
  /\ (blank (field_data "password" req) = true ->
      field_errors "password" (LoginForm_validate req) = ["This field is required."]).
Proof.
  intros Hanon Hsub Hblank.
  pose proof (login_form_blank req Hblank) as Hinvalid.
  split.
  - rewrite (login_invalid_form req st Hanon); [now rewrite Hsub|].
    now rewrite Hsub, Hinvalid.
  - unfold LoginForm_validate, field_errors, blank, DataRequired. cbn.
    split; intros Hb.
    + destruct (field_data "username" req) as [s|]; [|reflexivity].
      destruct (strip_nonempty s); [discriminate Hb | reflexivity].
    + destruct (field_data "password" req) as [s|]; [|reflexivity].
      destruct (strip_nonempty s); [discriminate Hb | reflexivity].
Qed.

(** X9.  A POST whose CSRF token is rejected has no effect: [login],
    [register] and [stock_tracker] leave the state as it was, whatever
    the other fields hold; no user is created, nobody is logged in and
    the provider is not asked. *)
Theorem rejected_csrf_changes_nothing
  (w : world) (req : request) (st : state) (message : string) :
  csrf_error req = Some message ->
  snd (login req st) = st
  /\ snd (register w req st) = st
  /\ snd (stock_tracker w req st) = st.
Proof.
  intros Hcsrf. repeat split.
  - destruct (login_cases req st)
      as [H | [[errors H] | [(st' & H & _) | (u & name & pw & _ & Hform & _)]]].
    + now rewrite H.
    + now rewrite H.
    + unfold login, current_user in *. unfold_monad.
      destruct (get_current_user st); [reflexivity|]. cbn [is_authenticated] in *.
      destruct (is_submitted req && no_errors (LoginForm_validate req)) eqn:Hv;
        [|reflexivity].
      apply andb_prop in Hv. destruct Hv as [_ Hv].
      destruct (login_form_fields req Hv) as (_ & _ & _ & _ & _ & _ & Hc).
      congruence.
    + destruct Hform as (Hv & _). apply andb_prop in Hv. destruct Hv as [_ Hv].
      destruct (login_form_fields req Hv) as (_ & _ & _ & _ & _ & _ & Hc).
      congruence.
  - destruct (register_cases w req st) as [H | [[errors H] | (_ & _ & Hvalid & _)]].
    + now rewrite H.
    + now rewrite H.
    + destruct (no_errors_accepted _ _ Hvalid) as (name & addr & pw & Hc & _).
      congruence.
  - unfold stock_tracker.
    assert (Hinvalid : no_errors (StockForm_validate req) = false).
    { unfold StockForm_validate, no_errors, csrf_token_errors. rewrite Hcsrf.
      cbn. now rewrite !andb_false_r. }
    rewrite Hinvalid, andb_false_r. reflexivity.
Qed.

End LoginExtras.

Lemma login_then_profile_witness :
  let w := world_of (NoReply "timed out") in
  let req := post_login "alice" "secret123" in
  let st1 := snd (login req state_anonymous) in
  NoDup (map id (users state_anonymous))
  /\ get_current_user state_anonymous = None
  /\ valid_login_form req "alice" "secret123"
  /\ query_by_username "alice" (users state_anonymous) = Some alice
  /\ check_password_hash (password_hash alice) "secret123" = true
  /\ get_current_user st1 = Some alice
  /\ view_function w Profile (get_request "/profile") st1 =
       (Ret (Rendered (profile_html alice (get_mock_profile alice)) 200), st1).
Proof.
  assert (Hids : NoDup (map id (users state_anonymous)))
    by (cbn; constructor; [intros [] | constructor]).
  assert (Hform : valid_login_form (post_login "alice" "secret123")
                    "alice" "secret123")
    by (repeat split; reflexivity).
  split; [exact Hids|]. split; [reflexivity|]. split; [exact Hform|].
  split; [reflexivity|]. split; [reflexivity|].
  exact (login_then_profile (world_of (NoReply "timed out"))
           (post_login "alice" "secret123") (get_request "/profile")
           state_anonymous "alice" "secret123" alice
           Hids eq_refl Hform eq_refl eq_refl).
Defined.

Lemma logout_revokes_access_witness :
  let w := world_of (NoReply "timed out") in
  let req := get_request "/dashboard" in
  In Dashboard protected
  /\ get_current_user state_alice = Some alice
  /\ fst (logout state_alice) = Ret (Redirect Index None)
  /\ get_current_user (snd (logout state_alice)) = None
  /\ users (snd (logout state_alice)) = users state_alice
  /\ fst (view_function w Dashboard req (snd (logout state_alice)))
       = Ret (Redirect Login (Some (path req))).
Proof.
  split; [now left|]. split; [reflexivity|].
  exact (logout_revokes_access (world_of (NoReply "timed out")) Dashboard
           (get_request "/dashboard") state_alice (or_introl eq_refl)).
Defined.

Lemma login_session_only_when_verified_witness :
  let req := post_login "alice" "secret123" in
  session (snd (login req state_anonymous)) <> session state_anonymous
  /\ exists u name password,
       field_data "username" req = Some name
       /\ field_data "password" req = Some password
       /\ csrf_error req = None
       /\ In u (users state_anonymous)
       /\ username u = name
       /\ check_password_hash (password_hash u) password = true
       /\ session (snd (login req state_anonymous))
            = Some (mkSession (id u) (remember_me req)).
Proof.
  assert (Hne : session (snd (login (post_login "alice" "secret123")
                                state_anonymous))
                <> session state_anonymous)
    by (cbn; discriminate).
  split; [exact Hne|].
  exact (proj2 (proj2 (login_session_only_when_verified
                         (post_login "alice" "secret123") state_anonymous))
           Hne).
Defined.

Lemma login_blank_field_is_redisplayed_witness :
  let req := post_login_no_password in
  get_current_user state_anonymous = None
  /\ is_submitted req = true
  /\ blank (field_data "username" req) || blank (field_data "password" req) = true
  /\ login req state_anonymous
       = (Ret (Rendered (login_html (LoginForm_validate req)) 200), state_anonymous)
  /\ (blank (field_data "password" req) = true ->
      field_errors "password" (LoginForm_validate req) = ["This field is required."]).
Proof.
  pose proof (login_blank_field_is_redisplayed post_login_no_password
                state_anonymous eq_refl eq_refl eq_refl) as (Hlogin & _ & Hpw).
  split; [reflexivity|]. split; [reflexivity|]. split; [reflexivity|].
  split; [exact Hlogin | exact Hpw].
Defined.

Lemma rejected_csrf_changes_nothing_witness :
  let w := world_of (NoReply "timed out") in
  let req := post_login_bad_csrf in
  csrf_error req = Some "The CSRF token is missing."
  /\ snd (login req state_anonymous) = state_anonymous
  /\ snd (register w req state_anonymous) = state_anonymous
  /\ snd (stock_tracker w req state_anonymous) = state_anonymous.
Proof.
  split; [reflexivity|].
  exact (rejected_csrf_changes_nothing (world_of (NoReply "timed out"))
           post_login_bad_csrf state_anonymous "The CSRF token is missing."
           eq_refl).
Defined.

(** ** The market data provider, beyond the fallback policy *)

Lemma http_gets_app (a b : list event) : http_gets (a ++ b) = http_gets a ++ http_gets b.
Proof. unfold http_gets. apply flat_map_app. Qed.

Lemma http_gets_logs (logs : list event) :
  forallb is_log logs = true -> http_gets logs = [].
Proof.
  induction logs as [|ev logs IH]; cbn; [reflexivity|].
  intros H. apply andb_prop in H. destruct H as [Hev Hrest].
  destruct ev; try discriminate Hev. cbn. now apply IH.
Qed.

Section ProviderMore.
Context {data_py : DataModule}.

(** One call, one request: the trace grows by the request and at most
    one log line. *)
Lemma get_stock_data_trace w ticker st :
  exists logs,
    trace (snd (get_stock_data w ticker st))
      = trace st ++ HttpGet (stock_url w ticker) :: logs
    /\ (length logs <= 1)%nat
    /\ forallb is_log logs = true.
Proof.
  assert (Hlogged : forall message exc,
            exists logs,
              (trace st ++ [HttpGet (stock_url w ticker)])
                ++ [LogError message exc]
                = trace st ++ HttpGet (stock_url w ticker) :: logs
              /\ (length logs <= 1)%nat /\ forallb is_log logs = true).
  { intros message exc. exists [LogError message exc].
    rewrite <- app_assoc. cbn. auto. }
  assert (Hquiet : exists logs,
            trace st ++ [HttpGet (stock_url w ticker)]
              = trace st ++ HttpGet (stock_url w ticker) :: logs
            /\ (length logs <= 1)%nat /\ forallb is_log logs = true).
  { exists []. cbn. auto. }
  destruct (network w (stock_url w ticker)) as [reason|status body|status fault]
    eqn:Hnet.
  3:{ rewrite (get_stock_data_broken _ _ _ _ _ Hnet). cbn zeta.
      destruct (is_http_error status); [|destruct (is_RequestException fault)];
        cbn; first [apply Hlogged | exact Hquiet]. }
  all: unfold get_stock_data, requests_get, raise_for_status, response_json;
    unfold_monad; rewrite Hnet; cbn.
  { apply Hlogged. }
  destruct body as [data|]; cbn.
  2:{ destruct ((400 <=? status)%Z && (status <? 600)%Z); cbn; apply Hlogged. }
  destruct ((400 <=? status)%Z && (status <? 600)%Z); cbn; [apply Hlogged|].
  destruct data; cbn; try exact Hquiet.
  - destruct (is_substring "Error Message" s); cbn;
      [apply Hlogged | exact Hquiet].
  - destruct (existsb _ items); cbn; [apply Hlogged | exact Hquiet].
  - destruct (dict_has "Error Message" kvs); cbn; [apply Hlogged|].
    destruct (dict_lookup "Time Series (Daily)" kvs) as [series|]; cbn;
      [destruct (truthy series); cbn|]; exact Hquiet.
Qed.


Lemma get_stock_data_gets w ticker st :
  http_gets (trace (snd (get_stock_data w ticker st)))
    = http_gets (trace st) ++ [stock_url w ticker].
Proof.
  destruct (get_stock_data_trace w ticker st) as (logs & Htrace & Hlen & Hlogs).
  rewrite Htrace, http_gets_app.
  change (HttpGet (stock_url w ticker) :: logs)
    with ([HttpGet (stock_url w ticker)] ++ logs).
  rewrite http_gets_app, (http_gets_logs logs Hlogs). reflexivity.
Qed.



End ProviderMore.


(** ** The chart renderer and the stock tracker, beyond the claims *)

Lemma dict_lookup_nodup {V : Type} (d : list (string * V)) (k : string) (v : V) :
  NoDup (dict_keys d) -> In (k, v) d -> dict_lookup k d = Some v.
Proof.
  unfold dict_keys. induction d as [|[k' v'] rest IH]; cbn; [tauto|].
  intros Hnodup [[= -> ->] | Hin].
  - now rewrite String.eqb_refl.
  - inversion Hnodup as [|? ? Hfresh Hrest]; subst.
    destruct (String.eqb k' k) eqn:Hk; [|now apply IH].
    apply String.eqb_eq in Hk. subst. elim Hfresh.
    change k with (fst (k, v)). now apply in_map.
Qed.

Lemma dict_lookup_app_l {V : Type} (a b : list (string * V)) (k : string) (v : V) :
  dict_lookup k a = Some v -> dict_lookup k (a ++ b) = Some v.
Proof.
  induction a as [|[k' v'] rest IH]; cbn; [discriminate|].
  destruct (String.eqb k' k); auto.
Qed.

Lemma dict_lookup_app_r {V : Type} (a b : list (string * V)) (k : string) :
  ~ In k (dict_keys a) -> dict_lookup k (a ++ b) = dict_lookup k b.
Proof.
  unfold dict_keys. induction a as [|[k' v'] rest IH]; cbn; [reflexivity|].
  intros Hnot. destruct (String.eqb k' k) eqn:Hk.
  - apply String.eqb_eq in Hk. elim Hnot. now left.
  - apply IH. tauto.
Qed.

Lemma comprehension_ret_all {A B : Type} (f : A -> result B) (l : list A) ys :
  comprehension f l = Ret ys -> forall x, In x l -> exists y, f x = Ret y.
Proof.
  revert ys. induction l as [|a l IH]; cbn; [tauto|].
  intros ys Hret x [<- | Hin].
  - destruct (f a); [eauto | discriminate].
  - destruct (f a); [|discriminate].
    destruct (comprehension f l) eqn:Hl; [|discriminate]. eapply IH; eauto.
Qed.

Lemma comprehension_first_raise {A B : Type} (f : A -> result B)
  (a b : list A) (x : A) (e : exn) :
  (forall z, In z a -> exists y, f z = Ret y) ->
  f x = Raise e ->
  comprehension f (a ++ x :: b) = Raise e.
Proof.
  induction a as [|z a IH]; cbn; intros Hall Hx.
  - now rewrite Hx.
  - destruct (Hall z (or_introl eq_refl)) as [y ->].
    rewrite IH; [reflexivity| |exact Hx]. intros; apply Hall; now right.
Qed.

Section ChartMore.
Context {rt : Runtime}.

Lemma close_price_entry kvs date entry :
  dict_lookup date kvs = Some entry ->
  close_price (JObj kvs) date =
    match close_error entry with
    | Some e => Raise e
    | None => close_price (JObj kvs) date
    end.
Proof.
  intros Hentry. unfold close_price, close_error. cbn. rewrite Hentry.
  destruct (py_getitem "4. close" entry) as [close|]; [|reflexivity].
  destruct (py_float close); reflexivity.
Qed.

Lemma close_parses_price kvs date entry :
  dict_lookup date kvs = Some entry ->
  close_parses entry = true <-> exists f, close_price (JObj kvs) date = Ret f.
Proof.
  intros Hentry. unfold close_price, close_parses. cbn. rewrite Hentry.
  destruct (py_getitem "4. close" entry) as [close|].
  - destruct (py_float close); split; eauto; try discriminate.
    intros [f Hf]. discriminate Hf.
  - split; [discriminate|]. intros [f Hf]. discriminate Hf.
Qed.

(** X12.  For a series with distinct dates, [create_stock_graph]
    returns exactly when every day has a ['4. close'] that [float]
    accepts and matplotlib renders the prices so obtained; one bad day,
    or a failure of matplotlib, makes it raise. *)
Theorem create_stock_graph_returns_iff_rendered
  (ticker : string) (kvs : list (string * json)) :
  NoDup (dict_keys kvs) ->
  (exists url, create_stock_graph ticker (JObj kvs) = Ret url)
  <-> (chartable (JObj kvs) = true
       /\ exists close_prices png,
            plotted (JObj kvs) (dict_keys kvs) close_prices
            /\ savefig ("Stock Prices for " ++ ticker)%string (dict_keys kvs)
                 close_prices = Ret png).
Proof.
  intros Hnodup. split.
  - intros [url Hurl].
    destruct (create_stock_graph_returned ticker kvs url Hurl)
      as (prices & png & Hplot & Hpng & _).
    split; [|eauto].
    cbn. apply forallb_forall. intros [date entry] Hmem. cbn.
    pose proof (dict_lookup_nodup kvs date entry Hnodup Hmem) as Hentry.
    apply (close_parses_price kvs date entry Hentry).
    apply comprehension_Forall2 in Hplot.
    apply (comprehension_ret_all _ _ _ Hplot).
    unfold dict_keys. change date with (fst (date, entry)). now apply in_map.
  - intros (_ & prices & png & Hplot & Hpng).
    rewrite (create_stock_graph_plotted ticker kvs prices Hplot), Hpng. eauto.
Qed.

(** X13.  The exception of [create_stock_graph] is the one of the first
    day, in the order of the series, whose close value cannot be used:
    [KeyError] for a missing ['4. close'], [ValueError] for a string that
    is not a number, [TypeError] for a value that is neither string nor
    number. *)
Theorem create_stock_graph_first_error
  (ticker : string) (before after : list (string * json)) (date : string)
  (entry : json) (e : exn) :
  chartable (JObj before) = true ->
  ~ In date (dict_keys before) ->
  close_error entry = Some e ->
  create_stock_graph ticker (JObj (before ++ (date, entry) :: after)) = Raise e.
Proof.
  intros Hchart Hfresh Herror.
  set (kvs := before ++ (date, entry) :: after).
  assert (Hkeys : dict_keys kvs = dict_keys before ++ date :: dict_keys after).
  { unfold kvs, dict_keys. now rewrite map_app. }
  assert (Hbad : close_price (JObj kvs) date = Raise e).
  { rewrite (close_price_entry kvs date entry), Herror; [reflexivity|].
    unfold kvs. rewrite dict_lookup_app_r by exact Hfresh. cbn.
    now rewrite String.eqb_refl. }
  assert (Hgood : forall d, In d (dict_keys before) ->
                            exists f, close_price (JObj kvs) d = Ret f).
  { intros d Hd. destruct (dict_lookup_key _ _ Hd) as [en Hen].
    apply (close_parses_price kvs d en).
    - unfold kvs. now apply dict_lookup_app_l.
    - cbn in Hchart. rewrite forallb_forall in Hchart.
      apply (Hchart (d, en)). now apply dict_lookup_in. }
  unfold create_stock_graph. cbn [py_keys]. rewrite Hkeys.
  now rewrite (comprehension_first_raise _ _ _ _ _ Hgood Hbad).
Qed.

Context {data_py : DataModule}.

(** X14.  Without a valid form the stock tracker asks nobody: on a GET,
    and on a POST whose ticker is blank (which gets the message of the
    required field), the page is rendered without series, chart or
    ticker, and the state is unchanged. *)
Theorem stock_tracker_without_ticker (w : world) (req : request) (st : state) :
  is_submitted req = false \/ blank (field_data "ticker" req) = true ->
  stock_tracker w req st =
    (Ret (Rendered
            (stock_tracker_html
               (if is_submitted req then StockForm_validate req else [])
               None None None) 200), st)
  /\ (is_submitted req = true ->
      field_errors "ticker" (StockForm_validate req) = ["This field is required."]).
Proof.
  intros Hcase. unfold stock_tracker.
  destruct Hcase as [Hget | Hblank].
  - rewrite Hget. cbn. split; [reflexivity | discriminate].
  - assert (Herr : field_errors "ticker" (StockForm_validate req)
                   = ["This field is required."]).
    { unfold StockForm_validate, field_errors, DataRequired, blank in *. cbn.
      destruct (field_data "ticker" req) as [s|]; [|reflexivity].
      destruct (strip_nonempty s); [discriminate Hblank | reflexivity]. }
    assert (Hinvalid : no_errors (StockForm_validate req) = false).
    { apply (no_errors_false _ "ticker" "This field is required." []).
      unfold field_errors in Herr.
      destruct (dict_lookup "ticker" (StockForm_validate req)) as [l|] eqn:Hl;
        [|discriminate Herr].
      subst l. now apply dict_lookup_in. }
    rewrite Hinvalid, andb_false_r. auto.
Qed.

(** X15.  With a non-empty mock series, a page that [stock_tracker]
    renders for a valid ticker always carries a non-empty series and the
    chart made from it, and nothing has been flashed: the branch without
    a chart is never taken. *)
Theorem stock_tracker_page_has_chart
  (w : world) (req : request) (st : state) (ticker : string) (r : response) :
  (forall t, truthy (get_mock_stock_data t) = true) ->
  valid_stock_form req ticker ->
  fst (stock_tracker w req st) = Ret r ->
  exists series url,
    r = Rendered (stock_tracker_html (StockForm_validate req) (Some series)
                    (Some url) (Some ticker)) 200
    /\ truthy series = true
    /\ create_stock_graph ticker series = Ret url
    /\ flashes (snd (stock_tracker w req st)) = flashes st.
Proof.
  intros Hmock Hform Hret.
  destruct (get_stock_data_frame w ticker st) as (Hflash & _ & _ & Htruthy).
  specialize (Htruthy (Hmock ticker)).
  destruct (get_stock_data w ticker st) as [[series|e] st1] eqn:Hdata.
  - cbn in Htruthy, Hflash. specialize (Htruthy series eq_refl).
    rewrite (stock_tracker_with_series w req st ticker series st1
               Hform Hdata Htruthy) in *.
    destruct (create_stock_graph ticker series) as [url|e] eqn:Hurl;
      [|discriminate Hret].
    cbn in Hret. injection Hret as <-. exists series, url. auto.
  - exfalso. destruct Hform as [Hvalid Hticker].
    unfold stock_tracker in Hret. rewrite Hvalid, Hticker in Hret.
    cbn [str_data] in Hret. unfold_monad. rewrite Hdata in Hret.
    discriminate Hret.
Qed.

End ChartMore.

Lemma create_stock_graph_returns_iff_rendered_witness :
  NoDup (dict_keys Reference.mock_entries)
  /\ ((exists url, create_stock_graph "AAPL" (JObj Reference.mock_entries) = Ret url)
      <-> (chartable (JObj Reference.mock_entries) = true
           /\ exists close_prices png,
                plotted (JObj Reference.mock_entries)
                  (dict_keys Reference.mock_entries) close_prices
                /\ savefig ("Stock Prices for " ++ "AAPL")%string
                     (dict_keys Reference.mock_entries) close_prices = Ret png)).
Proof.
  assert (Hnodup : NoDup (dict_keys Reference.mock_entries)).
  { cbn. constructor; [intros [H | []]; discriminate H|].
    constructor; [intros [] | constructor]. }
  split; [exact Hnodup|].
  exact (create_stock_graph_returns_iff_rendered "AAPL" Reference.mock_entries
           Hnodup).
Defined.

Lemma create_stock_graph_first_error_witness :
  let before := [("2024-01-03", JObj [("4. close", JStr "151.10")])] in
  let entry := JObj [("4. close", JStr "N/A")] in
  chartable (JObj before) = true
  /\ ~ In "2024-01-02" (dict_keys before)
  /\ close_error entry = Some ValueError
  /\ create_stock_graph "AAPL" (JObj (before ++ [("2024-01-02", entry)]))
       = Raise ValueError.
Proof.
  assert (Hfresh : ~ In "2024-01-02"
                     (dict_keys [("2024-01-03", JObj [("4. close", JStr "151.10")])]))
    by (cbn; intros [H | []]; discriminate H).
  split; [reflexivity|]. split; [exact Hfresh|]. split; [reflexivity|].
  exact (create_stock_graph_first_error "AAPL"
           [("2024-01-03", JObj [("4. close", JStr "151.10")])] []
           "2024-01-02" (JObj [("4. close", JStr "N/A")]) ValueError
           eq_refl Hfresh eq_refl).
Defined.

Lemma stock_tracker_without_ticker_witness :
  let w := world_of (NoReply "timed out") in
  let req := post_ticker "  " in
  blank (field_data "ticker" req) = true
  /\ stock_tracker w req state_alice =
       (Ret (Rendered (stock_tracker_html (StockForm_validate req)
                         None None None) 200), state_alice)
  /\ field_errors "ticker" (StockForm_validate req) = ["This field is required."].
Proof.
  pose proof (stock_tracker_without_ticker (world_of (NoReply "timed out"))
                (post_ticker "  ") state_alice (or_intror eq_refl))
    as [Hpage Herr].
  split; [reflexivity|]. split; [exact Hpage | exact (Herr eq_refl)].
Defined.

Lemma stock_tracker_page_has_chart_witness :
  let w := world_of (NoReply "timed out") in
  let req := post_ticker "AAPL" in
  (forall t, truthy (get_mock_stock_data t) = true)
  /\ valid_stock_form req "AAPL"
  /\ exists r,
       fst (stock_tracker w req state_alice) = Ret r
       /\ exists series url,
            r = Rendered (stock_tracker_html (StockForm_validate req)
                            (Some series) (Some url) (Some "AAPL")) 200
            /\ truthy series = true
            /\ create_stock_graph "AAPL" series = Ret url
            /\ flashes (snd (stock_tracker w req state_alice))
                 = flashes state_alice.
Proof.
  assert (Hmock : forall t, truthy (get_mock_stock_data t) = true)
    by (intros t; reflexivity).
  assert (Hform : valid_stock_form (post_ticker "AAPL") "AAPL")
    by (split; reflexivity).
  split; [exact Hmock|]. split; [exact Hform|].
  eexists. split; [reflexivity|].
  exact (stock_tracker_page_has_chart (world_of (NoReply "timed out"))
           (post_ticker "AAPL") state_alice "AAPL" _ Hmock Hform eq_refl).
Defined.

(** ** The dashboard *)

Lemma dict_lookup_set_same {V : Type} (k : string) (v : V) d :
  dict_lookup k (dict_set k v d) = Some v.
Proof.
  induction d as [|[k' v'] rest IH]; cbn.
  - now rewrite String.eqb_refl.
  - destruct (String.eqb k' k) eqn:Hk; cbn; rewrite Hk; auto.
Qed.

Lemma dict_lookup_set_other {V : Type} (k k' : string) (v : V) d :
  k' <> k -> dict_lookup k' (dict_set k v d) = dict_lookup k' d.
Proof.
  intros Hne. induction d as [|[k0 v0] rest IH]; cbn.
  - destruct (String.eqb k k') eqn:Hk; [|reflexivity].
    apply String.eqb_eq in Hk. congruence.
  - destruct (String.eqb k0 k) eqn:Hk; cbn.
    + apply String.eqb_eq in Hk. subst k0.
      destruct (String.eqb k k') eqn:Hk'; [|reflexivity].
      apply String.eqb_eq in Hk'. congruence.
    + destruct (String.eqb k0 k'); auto.
Qed.


Section DashboardFacts.
Context {rt : Runtime} {data_py : DataModule}.

(** What [get_stock_data] returns does not depend on the state. *)
Lemma get_stock_data_value w ticker st st' :
  fst (get_stock_data w ticker st) = fst (get_stock_data w ticker st').
Proof.
  destruct (network w (stock_url w ticker)) as [reason|status body|status fault]
    eqn:Hnet.
  3:{ rewrite !(get_stock_data_broken _ _ _ _ _ Hnet). cbn zeta.
      destruct (is_http_error status); [|destruct (is_RequestException fault)];
        reflexivity. }
  all: unfold get_stock_data, requests_get, raise_for_status, response_json;
    unfold_monad; rewrite Hnet; cbn.
  { reflexivity. }
  destruct body as [data|]; cbn.
  2:{ destruct ((400 <=? status)%Z && (status <? 600)%Z); reflexivity. }
  destruct ((400 <=? status)%Z && (status <? 600)%Z); cbn; [reflexivity|].
  destruct data; cbn; try reflexivity.
  - destruct (is_substring "Error Message" s); reflexivity.
  - destruct (existsb _ items); reflexivity.
  - destruct (dict_has "Error Message" kvs); cbn; [reflexivity|].
    destruct (dict_lookup "Time Series (Daily)" kvs) as [series|]; cbn;
      [destruct (truthy series)|]; reflexivity.
Qed.

Lemma stock_data_of_spec w tickers :
  forall acc st sd st',
    stock_data_of w tickers acc st = (Ret sd, st') ->
    (forall t, In t tickers ->
               exists v, fst (get_stock_data w t st) = Ret v
                         /\ dict_lookup t sd = Some v)
    /\ (forall t, ~ In t tickers -> dict_lookup t sd = dict_lookup t acc)
    /\ http_gets (trace st') = http_gets (trace st) ++ map (stock_url w) tickers
    /\ users st' = users st /\ session st' = session st
    /\ flashes st' = flashes st.
Proof.
  induction tickers as [|ticker rest IH]; intros acc st sd st' Hrun.
  - cbn in Hrun. injection Hrun as <- <-. rewrite app_nil_r.
    repeat split; try reflexivity. intros t [].
  - cbn [stock_data_of] in Hrun. unfold bind in Hrun.
    destruct (get_stock_data_frame w ticker st) as (Hf & Hu & Hs & _).
    pose proof (get_stock_data_gets w ticker st) as Hgets.
    destruct (get_stock_data w ticker st) as [[v|e] st1] eqn:Hdata;
      [|discriminate Hrun].
    cbn [snd] in Hf, Hu, Hs, Hgets.
    destruct (IH _ _ _ _ Hrun) as (Hin & Hout & Hreq & Hu' & Hs' & Hf').
    repeat split.
    + intros t Ht. destruct (in_dec string_dec t rest) as [Hrest | Hrest].
      * destruct (Hin t Hrest) as [v' [Hv' Hl]]. exists v'. split; [|exact Hl].
        now rewrite (get_stock_data_value w t st st1).
      * destruct Ht as [<- | Ht]; [|contradiction].
        exists v. split; [now rewrite Hdata|].
        rewrite (Hout ticker Hrest). apply dict_lookup_set_same.
    + intros t Ht. cbn in Ht.
      rewrite (Hout t) by tauto. apply dict_lookup_set_other.
      intros ->. tauto.
    + rewrite Hreq, Hgets, <- app_assoc. reflexivity.
    + congruence.
    + congruence.
    + congruence.
Qed.

Lemma stock_data_of_request_failed w tickers :
  forall acc st,
    (forall t, In t tickers ->
               request_failed (network w (stock_url w t)) = true) ->
    exists sd st', stock_data_of w tickers acc st = (Ret sd, st').
Proof.
  induction tickers as [|ticker rest IH]; intros acc st Hfail; cbn.
  - unfold ret. eauto.
  - unfold bind.
    destruct (get_stock_data_request_failed w ticker st
                (Hfail ticker (or_introl eq_refl))) as (st1 & -> & _).
    apply IH. intros; apply Hfail; now right.
Qed.

End DashboardFacts.

Section DashboardExtras.
Context {rt : Runtime} {data_py : DataModule}.


(** X17.  The dashboard survives a provider that is down: when the
    request fails for every preferred ticker, the page is rendered with
    status 200 and shows the mock series of each of them. *)
Theorem dashboard_with_provider_down (w : world) (u : User) (st : state) :
  (forall t, In t (preferred_stocks (get_mock_profile u)) ->
             request_failed (network w (stock_url w t)) = true) ->
  exists stock_data st',
    dashboard w u st = (Ret (Rendered (dashboard_html stock_data) 200), st')
    /\ (forall t, In t (preferred_stocks (get_mock_profile u)) ->
                  dict_lookup t stock_data = Some (get_mock_stock_data t))
    /\ flashes st' = flashes st.
Proof.
  intros Hfail. unfold dashboard, bind.
  destruct (stock_data_of_request_failed w _ [] st Hfail) as (sd & st' & Hrun).
  rewrite Hrun. exists sd, st'. split; [reflexivity|].
  destruct (stock_data_of_spec w _ [] st sd st' Hrun)
    as (Hin & _ & _ & _ & _ & Hf).
  split; [|exact Hf].
  intros t Ht. destruct (Hin t Ht) as [v [Hv Hl]].
  destruct (get_stock_data_request_failed w t st (Hfail t Ht)) as (st1 & Hmock & _).
  rewrite Hmock in Hv. cbn in Hv. congruence.
Qed.

End DashboardExtras.


Lemma dashboard_with_provider_down_witness :
  let w := world_of (NoReply "timed out") in
  (forall t, In t (preferred_stocks (get_mock_profile alice)) ->
             request_failed (network w (stock_url w t)) = true)
  /\ exists stock_data st',
       dashboard w alice state_alice
         = (Ret (Rendered (dashboard_html stock_data) 200), st')
       /\ (forall t, In t (preferred_stocks (get_mock_profile alice)) ->
                     dict_lookup t stock_data = Some (get_mock_stock_data t))
       /\ flashes st' = flashes state_alice.
Proof.
  assert (Hdown : forall t, In t (preferred_stocks (get_mock_profile alice)) ->
            request_failed (network (world_of (NoReply "timed out"))
                              (stock_url (world_of (NoReply "timed out")) t)) = true)
    by (intros t _; reflexivity).
  split; [exact Hdown|].
  exact (dashboard_with_provider_down (world_of (NoReply "timed out"))
           alice state_alice Hdown).
Defined.

(** ** The application as a whole *)

Section ApplicationFacts.
Context {rt : Runtime} {data_py : DataModule}.

Lemma stock_data_of_frame w tickers :
  forall acc st,
    users (snd (stock_data_of w tickers acc st)) = users st
    /\ session (snd (stock_data_of w tickers acc st)) = session st.
Proof.
  induction tickers as [|ticker rest IH]; intros acc st; cbn; [auto|].
  unfold bind.
  destruct (get_stock_data_frame w ticker st) as (_ & Hu & Hs & _).
  destruct (get_stock_data w ticker st) as [[v|e] st1]; cbn [snd] in *.
  - destruct (IH (dict_set ticker v acc) st1) as [Hu' Hs']. split; congruence.
  - auto.
Qed.

Lemma dashboard_frame w u st :
  users (snd (dashboard w u st)) = users st
  /\ session (snd (dashboard w u st)) = session st.
Proof.
  unfold dashboard, bind.
  destruct (stock_data_of_frame w (preferred_stocks (get_mock_profile u)) [] st)
    as [Hu Hs].
  destruct (stock_data_of w _ [] st) as [[sd|e] st']; cbn in *; auto.
Qed.

Lemma stock_tracker_frame w req st :
  users (snd (stock_tracker w req st)) = users st
  /\ session (snd (stock_tracker w req st)) = session st.
Proof.
  unfold stock_tracker.
  destruct (is_submitted req && no_errors (StockForm_validate req)); [|auto].
  set (ticker := str_data (field_data "ticker" req)).
  destruct (get_stock_data_frame w ticker st) as (_ & Hu & Hs & _).
  unfold_monad.
  destruct (get_stock_data w ticker st) as [[series|e] st1]; cbn [snd] in *;
    [|auto].
  destruct (truthy series); [|cbn; auto].
  destruct (create_stock_graph ticker series); cbn; auto.
Qed.

Lemma login_trace req st :
  http_gets (trace (snd (login req st))) = http_gets (trace st)
  /\ (session (snd (login req st)) = session st
      \/ exists s, session (snd (login req st)) = Some s).
Proof.
  destruct (login_cases req st)
    as [H | [[errors H] | [(st' & H & _ & Hs & _)
                          | (u & name & pw & _ & _ & _ & _ & H)]]].
  - rewrite H. auto.
  - rewrite H. auto.
  - split; [|rewrite H; auto].
    clear H Hs st'. unfold login, current_user, check_password, login_user.
    unfold_monad.
    destruct (get_current_user st); [reflexivity|]. cbn [is_authenticated].
    destruct (is_submitted req && no_errors (LoginForm_validate req));
      [|reflexivity].
    destruct (query_by_username _ (users st)) as [u|]; [|reflexivity].
    cbn beta iota.
    destruct (check_password_hash _ _); cbn; rewrite http_gets_app, app_nil_r;
      reflexivity.
  - rewrite H. cbn. rewrite http_gets_app, app_nil_r. eauto.
Qed.

(** What a view leaves alone. *)
Lemma view_frame w ep req st :
  (ep <> Register -> users (snd (view_function w ep req st)) = users st)
  /\ (ep <> Login ->
      session (snd (view_function w ep req st)) = session st
      \/ session (snd (view_function w ep req st)) = None)
  /\ (get_current_user st = None ->
      http_gets (trace (snd (view_function w ep req st))) = http_gets (trace st)).
Proof.
  assert (Hprotected : forall view : User -> M response,
            (forall u, users (snd (view u st)) = users st
                       /\ session (snd (view u st)) = session st) ->
            (users (snd (login_required req view st)) = users st)
            /\ (session (snd (login_required req view st)) = session st
                \/ session (snd (login_required req view st)) = None)
            /\ (get_current_user st = None ->
                http_gets (trace (snd (login_required req view st)))
                  = http_gets (trace st))).
  { intros view Hview. destruct (get_current_user st) as [u|] eqn:Hcu.
    - rewrite (login_required_authenticated req view st u Hcu).
      destruct (Hview u) as [Hu Hs]. repeat split; [exact Hu | now left | discriminate].
    - rewrite (login_required_anonymous req view st Hcu).
      cbn. repeat split; auto. }
  destruct ep; cbn [view_function].
  - cbn. repeat split; auto.
  - destruct (login_cases req st)
      as [H | [[errors H] | [(st' & H & Hu & _) | (u & n & p & _ & _ & _ & _ & H)]]].
    + split; [intros _; now rewrite H|]. split; [intros Hne; now elim Hne|].
      intros _. apply login_trace.
    + split; [intros _; now rewrite H|]. split; [intros Hne; now elim Hne|].
      intros _. apply login_trace.
    + split; [intros _; now rewrite H|]. split; [intros Hne; now elim Hne|].
      intros _. apply login_trace.
    + split; [intros _; now rewrite H|]. split; [intros Hne; now elim Hne|].
      intros _. apply login_trace.
  - cbn. repeat split; auto.
  - split; [intros Hne; now elim Hne|].
    destruct (register_never_raises_aux w req st) as (Hs & Ht).
    split; [intros _; now left|]. intros _. now rewrite Ht.
  - destruct (Hprotected (dashboard w) (fun u => dashboard_frame w u st))
      as (Hu & Hs & Ht). auto.
  - destruct (Hprotected profile) as (Hu & Hs & Ht); [intros u; cbn; auto|]. auto.
  - destruct (Hprotected (fun _ => stock_tracker w req)) as (Hu & Hs & Ht);
      [intros _; apply stock_tracker_frame|]. auto.
  - destruct (Hprotected (fun _ => recommendations)) as (Hu & Hs & Ht);
      [intros _; cbn; auto|]. auto.
Qed.

(** A request either leaves the state alone (unknown path, method not
    allowed) or runs the view of its route. *)
Lemma dispatch_cases w req st :
  snd (full_dispatch_request w req st) = st
  \/ exists ep methods,
       In (path req, (ep, methods)) url_map
       /\ snd (full_dispatch_request w req st) = snd (view_function w ep req st).
Proof.
  unfold full_dispatch_request.
  destruct (dict_lookup (path req) url_map) as [[ep methods]|] eqn:Hroute;
    [|now left].
  destruct (existsb (method_eqb (method req)) methods); [|now left].
  right. exists ep, methods. split; [now apply dict_lookup_in|].
  destruct (view_function w ep req st) as [[r|e] st']; reflexivity.
Qed.

End ApplicationFacts.

Lemma route_of_register p ep methods :
  In (p, (ep, methods)) url_map -> ep = Register -> p = "/register".
Proof.
  cbn. intros Hin ->.
  repeat (destruct Hin as [Hin | Hin]; [injection Hin as <-; congruence|]);
    try (injection Hin as <-; try discriminate; reflexivity).
  destruct Hin.
Qed.

Lemma route_of_login p ep methods :
  In (p, (ep, methods)) url_map -> ep = Login -> p = "/login".
Proof.
  cbn. intros Hin ->.
  repeat (destruct Hin as [Hin | Hin]; [injection Hin as <-; congruence|]);
    try (injection Hin as <-; try discriminate; reflexivity).
  destruct Hin.
Qed.

Section ApplicationExtras.
Context {rt : Runtime} {data_py : DataModule}.

(** X18.  An anonymous client cannot make the application call the
    provider: whatever the path, the method and the form, a request
    without a current user sends no request to the outside. *)
Theorem anonymous_request_never_reaches_provider
  (w : world) (req : request) (st : state) :
  get_current_user st = None ->
  http_gets (trace (snd (full_dispatch_request w req st))) = http_gets (trace st).
Proof.
  intros Hanon.
  destruct (dispatch_cases w req st) as [-> | (ep & methods & _ & ->)];
    [reflexivity|].
  now apply view_frame.
Qed.

(** X19.  The user table changes only through /register: a request to
    any other path, served or not, leaves every row as it was. *)
Theorem users_change_only_through_register
  (w : world) (req : request) (st : state) :
  path req <> "/register" ->
  users (snd (full_dispatch_request w req st)) = users st.
Proof.
  intros Hpath.
  destruct (dispatch_cases w req st) as [-> | (ep & methods & Hroute & ->)];
    [reflexivity|].
  apply view_frame. intros Hep. apply Hpath.
  exact (route_of_register _ _ _ Hroute Hep).
Qed.

(** X20.  Every request keeps the user table well formed: usernames,
    emails and primary keys stay unique, and stored usernames and emails
    stay non-blank. *)
Theorem every_request_keeps_the_store
  (w : world) (req : request) (st : state) :
  unique_store (users st) /\ store_ok (users st) ->
  unique_store (users (snd (full_dispatch_request w req st)))
  /\ store_ok (users (snd (full_dispatch_request w req st))).
Proof.
  intros [Hunique Hok].
  destruct (dispatch_cases w req st) as [-> | (ep & methods & _ & ->)];
    [auto|].
  destruct ep;
    try (rewrite (proj1 (view_frame w _ req st)) by discriminate; auto).
  cbn [view_function]. split.
  - now apply register_keeps_unique_store.
  - now apply register_preserves_store_ok.
Qed.

(** X21.  Only /login logs somebody in: after a request to any other
    path the session is the one of before, or none. *)
Theorem session_created_only_by_login
  (w : world) (req : request) (st : state) :
  path req <> "/login" ->
  session (snd (full_dispatch_request w req st)) = session st
  \/ session (snd (full_dispatch_request w req st)) = None.
Proof.
  intros Hpath.
  destruct (dispatch_cases w req st) as [-> | (ep & methods & Hroute & ->)];
    [now left|].
  apply view_frame. intros Hep. apply Hpath.
  exact (route_of_login _ _ _ Hroute Hep).
Qed.

End ApplicationExtras.

Lemma anonymous_request_never_reaches_provider_witness :
  let w := world_of (NoReply "timed out") in
  let req := post_ticker "AAPL" in
  get_current_user state_anonymous = None
  /\ http_gets (trace (snd (full_dispatch_request w req state_anonymous)))
       = http_gets (trace state_anonymous).
Proof.
  split; [reflexivity|].
  exact (anonymous_request_never_reaches_provider (world_of (NoReply "timed out"))
           (post_ticker "AAPL") state_anonymous eq_refl).
Defined.

Lemma users_change_only_through_register_witness :
  let w := world_of (NoReply "timed out") in
  let req := mkRequest POST "/login" (form_data bob_request) None in
  path req <> "/register"
  /\ users (snd (full_dispatch_request w req state_anonymous))
       = users state_anonymous.
Proof.
  assert (Hpath : "/login" <> "/register") by discriminate.
  split; [exact Hpath|].
  exact (users_change_only_through_register (world_of (NoReply "timed out"))
           (mkRequest POST "/login" (form_data bob_request) None)
           state_anonymous Hpath).
Defined.

Lemma store_ok_alice : store_ok (users state_anonymous).
Proof. constructor; [split; reflexivity | constructor]. Defined.

Lemma every_request_keeps_the_store_witness :
  let w := world_of (NoReply "timed out") in
  (unique_store (users state_anonymous) /\ store_ok (users state_anonymous))
  /\ unique_store (users (snd (full_dispatch_request w bob_request state_anonymous)))
  /\ store_ok (users (snd (full_dispatch_request w bob_request state_anonymous))).
Proof.
  split; [exact (conj unique_store_alice store_ok_alice)|].
  exact (every_request_keeps_the_store (world_of (NoReply "timed out"))
           bob_request state_anonymous (conj unique_store_alice store_ok_alice)).
Defined.

Lemma session_created_only_by_login_witness :
  let w := world_of (NoReply "timed out") in
  let req := get_request "/logout" in
  path req <> "/login"
  /\ (session (snd (full_dispatch_request w req state_alice)) = session state_alice
      \/ session (snd (full_dispatch_request w req state_alice)) = None).
Proof.
  assert (Hpath : "/logout" <> "/login") by discriminate.
  split; [exact Hpath|].
  exact (session_created_only_by_login (world_of (NoReply "timed out"))
           (get_request "/logout") state_alice Hpath).
Defined.

(** ** The data URI can be read back *)

Ltac div_lia := zify; Z.to_euclidean_division_equations; lia.

Lemma sextets_below_64 :
  forallb (fun n => match b64_index (b64_char n) with
                    | Some m => N.eqb m n && negb (Ascii.eqb (b64_char n) b64_pad)
                    | None => false
                    end)
    (map N.of_nat (seq 0 64)) = true.
Proof. vm_compute. reflexivity. Qed.

Lemma b64_index_char (n : N) :
  (n < 64)%N ->
  b64_index (b64_char n) = Some n /\ Ascii.eqb (b64_char n) b64_pad = false.
Proof.
  intros Hn. pose proof sextets_below_64 as Hall.
  rewrite forallb_forall in Hall.
  assert (Hin : In n (map N.of_nat (seq 0 64))).
  { apply in_map_iff. exists (N.to_nat n). split; [lia|].
    apply in_seq. lia. }
  specialize (Hall n Hin).
  destruct (b64_index (b64_char n)) as [m|]; [|discriminate Hall].
  apply andb_prop in Hall. destruct Hall as [Hm Hpad].
  apply N.eqb_eq in Hm. subst m.
  destruct (Ascii.eqb (b64_char n) b64_pad); [discriminate Hpad | auto].
Qed.

Lemma byte_below_256 (a : Byte.byte) : (Byte.to_N a < 256)%N.
Proof. pose proof (Byte.to_N_bounded a). lia. Qed.

Lemma list_ind3 {A : Type} (P : list A -> Prop) :
  P [] -> (forall a, P [a]) -> (forall a b, P [a; b]) ->
  (forall a b c l, P l -> P (a :: b :: c :: l)) ->
  forall l, P l.
Proof.
  intros H0 H1 H2 H3.
  fix IH 1.
  intros [|a [|b [|c l]]];
    [exact H0 | exact (H1 a) | exact (H2 a b) | exact (H3 a b c l (IH l))].
Qed.

(** Decoding undoes the encoding. *)
Lemma b64decode_b64encode (bs : list Byte.byte) : b64decode (b64encode bs) = Some bs.
Proof.
  induction bs as [|a|a b|a b c rest IH] using list_ind3.
  - reflexivity.
  - pose proof (byte_below_256 a) as Ha.
    cbn [b64encode b64decode]. cbv zeta.
    destruct (b64_index_char (Byte.to_N a / 4)) as [-> _]; [div_lia|].
    destruct (b64_index_char (Byte.to_N a mod 4 * 16)) as [-> _]; [div_lia|].
    change (Ascii.eqb "=" b64_pad) with true. cbv iota.
    replace (Byte.to_N a / 4 * 4 + Byte.to_N a mod 4 * 16 / 16)%N
      with (Byte.to_N a) by div_lia.
    now rewrite Byte.of_to_N.
  - pose proof (byte_below_256 a) as Ha. pose proof (byte_below_256 b) as Hb.
    cbn [b64encode b64decode]. cbv zeta.
    destruct (b64_index_char (Byte.to_N a / 4)) as [-> _]; [div_lia|].
    destruct (b64_index_char (Byte.to_N a mod 4 * 16 + Byte.to_N b / 16))
      as [-> _]; [div_lia|].
    destruct (b64_index_char (Byte.to_N b mod 16 * 4)) as [-> ->]; [div_lia|].
    change (Ascii.eqb "=" b64_pad) with true. cbv iota.
    replace (Byte.to_N a / 4 * 4
             + (Byte.to_N a mod 4 * 16 + Byte.to_N b / 16) / 16)%N
      with (Byte.to_N a) by div_lia.
    replace ((Byte.to_N a mod 4 * 16 + Byte.to_N b / 16) mod 16 * 16
             + Byte.to_N b mod 16 * 4 / 4)%N
      with (Byte.to_N b) by div_lia.
    now rewrite !Byte.of_to_N.
  - pose proof (byte_below_256 a) as Ha. pose proof (byte_below_256 b) as Hb.
    pose proof (byte_below_256 c) as Hc.
    cbn [b64encode b64decode]. cbv zeta.
    destruct (b64_index_char (Byte.to_N a / 4)) as [-> _]; [div_lia|].
    destruct (b64_index_char (Byte.to_N a mod 4 * 16 + Byte.to_N b / 16))
      as [-> _]; [div_lia|].
    destruct (b64_index_char (Byte.to_N b mod 16 * 4 + Byte.to_N c / 64))
      as [-> _]; [div_lia|].
    destruct (b64_index_char (Byte.to_N c mod 64)) as [-> ->]; [div_lia|].
    fold b64encode. rewrite IH.
    replace (Byte.to_N a / 4 * 4
             + (Byte.to_N a mod 4 * 16 + Byte.to_N b / 16) / 16)%N
      with (Byte.to_N a) by div_lia.
    set (n2 := (Byte.to_N a mod 4 * 16 + Byte.to_N b / 16)%N).
    set (n3 := (Byte.to_N b mod 16 * 4 + Byte.to_N c / 64)%N).
    assert (H2 : (n2 mod 16 = Byte.to_N b / 16)%N) by (unfold n2; div_lia).
    assert (H3 : (n3 / 4 = Byte.to_N b mod 16)%N) by (unfold n3; div_lia).
    assert (H3' : (n3 mod 4 = Byte.to_N c / 64)%N) by (unfold n3; div_lia).
    rewrite H2, H3, H3'.
    replace (Byte.to_N b / 16 * 16 + Byte.to_N b mod 16)%N
      with (Byte.to_N b) by div_lia.
    replace (Byte.to_N c / 64 * 64 + Byte.to_N c mod 64)%N
      with (Byte.to_N c) by div_lia.
    now rewrite !Byte.of_to_N.
Qed.

Lemma b64encode_length (bs : list Byte.byte) :
  String.length (b64encode bs) = 4 * ((length bs + 2) / 3).
Proof.
  induction bs as [|a|a b|a b c rest IH] using list_ind3; try reflexivity.
  cbn [b64encode String.length length]. rewrite IH.
  replace (S (S (S (length rest))) + 2) with (length rest + 2 + 1 * 3) by lia.
  rewrite Nat.div_add by lia. lia.
Qed.

Section DataUri.
Context {rt : Runtime} {data_py : DataModule}.

(** X22.  Nothing is lost in the data URI: a string returned by
    [create_stock_graph] is the prefix followed by a payload of 4
    characters per 3 bytes (rounded up) that decodes back to exactly the
    PNG bytes that matplotlib produced for the dates of the series and
    the floats of their close values. *)
Theorem data_uri_decodes_to_png
  (ticker : string) (kvs : list (string * json)) (url : string) :
  create_stock_graph ticker (JObj kvs) = Ret url ->
  exists payload close_prices png,
    url = ("data:image/png;base64," ++ payload)%string
    /\ plotted (JObj kvs) (dict_keys kvs) close_prices
    /\ savefig ("Stock Prices for " ++ ticker)%string (dict_keys kvs)
         close_prices = Ret png
    /\ b64decode payload = Some png
    /\ String.length payload = 4 * ((length png + 2) / 3).
Proof.
  intros Hurl.
  destruct (create_stock_graph_returned ticker kvs url Hurl)
    as (prices & png & Hplot & Hpng & ->).
  exists (b64encode png), prices, png.
  split; [reflexivity|]. split; [exact Hplot|]. split; [exact Hpng|].
  split; [apply b64decode_b64encode | apply b64encode_length].
Qed.

(** X23.  The path without fallback: when the provider answers with a
    JSON object without ['Error Message'] whose ['Time Series (Daily)']
    is a non-empty series, every close value of which parses, and
    matplotlib renders the prices, a valid POST to the stock tracker
    renders that very series with its chart, status 200, and neither
    logs nor flashes anything; when matplotlib raises instead, the view
    raises the same exception. *)
Theorem stock_tracker_shows_provider_series
  (w : world) (req : request) (st : state) (ticker : string) (status : Z)
  (body kvs : list (string * json)) (close_prices : list spec_float) :
  valid_stock_form req ticker ->
  network w (stock_url w ticker) = Reply status (Some (JObj body)) ->
  is_http_error status = false ->
  dict_has "Error Message" body = false ->
  dict_lookup "Time Series (Daily)" body = Some (JObj kvs) ->
  kvs <> [] ->
  plotted (JObj kvs) (dict_keys kvs) close_prices ->
  stock_tracker w req st =
    match savefig ("Stock Prices for " ++ ticker)%string (dict_keys kvs)
            close_prices with
    | Ret png =>
        (Ret (Rendered (stock_tracker_html (StockForm_validate req)
                          (Some (JObj kvs))
                          (Some ("data:image/png;base64," ++ b64encode png)%string)
                          (Some ticker)) 200),
         add_event (HttpGet (stock_url w ticker)) st)
    | Raise e => (Raise e, add_event (HttpGet (stock_url w ticker)) st)
    end.
Proof.
  intros Hform Hnet Hst Herr Hseries Hnonempty Hplot.
  assert (Htruthy : truthy (JObj kvs) = true)
    by (destruct kvs; [now elim Hnonempty | reflexivity]).
  pose proof (get_stock_data_object w ticker st status body Hnet Hst) as Hdata.
  cbv zeta in Hdata. rewrite Herr, Hseries, Htruthy in Hdata.
  rewrite (stock_tracker_with_series w req st ticker _ _ Hform Hdata Htruthy).
  rewrite (create_stock_graph_plotted ticker kvs close_prices Hplot).
  destruct (savefig _ _ close_prices); reflexivity.
Qed.

End DataUri.

Lemma data_uri_decodes_to_png_witness :
  exists url,
    create_stock_graph "AAPL" (JObj Reference.mock_entries) = Ret url
    /\ exists payload close_prices png,
         url = ("data:image/png;base64," ++ payload)%string
         /\ plotted (JObj Reference.mock_entries)
              (dict_keys Reference.mock_entries) close_prices
         /\ savefig ("Stock Prices for " ++ "AAPL")%string
              (dict_keys Reference.mock_entries) close_prices = Ret png
         /\ b64decode payload = Some png
         /\ String.length payload = 4 * ((length png + 2) / 3).
Proof.
  eexists. split; [reflexivity|].
  exact (data_uri_decodes_to_png "AAPL" Reference.mock_entries _ eq_refl).
Defined.

Lemma daily_prices_plotted :
  exists close_prices, plotted (JObj daily_entries) (dict_keys daily_entries)
                         close_prices.
Proof. eexists. apply comprehension_Forall2. reflexivity. Defined.

Lemma stock_tracker_shows_provider_series_witness :
  let w := world_of daily_reply in
  let req := post_ticker "AAPL" in
  valid_stock_form req "AAPL"
  /\ network w (stock_url w "AAPL")
       = Reply 200 (Some (JObj [ ("Meta Data", JObj [("2. Symbol", JStr "AAPL")]);
                                 ("Time Series (Daily)", JObj daily_entries) ]))
  /\ daily_entries <> []
  /\ exists close_prices,
       plotted (JObj daily_entries) (dict_keys daily_entries) close_prices
       /\ stock_tracker w req state_alice =
            match savefig ("Stock Prices for " ++ "AAPL")%string
                    (dict_keys daily_entries) close_prices with
            | Ret png =>
                (Ret (Rendered (stock_tracker_html (StockForm_validate req)
                                  (Some (JObj daily_entries))
                                  (Some ("data:image/png;base64,"
                                         ++ b64encode png)%string)
                                  (Some "AAPL")) 200),
                 add_event (HttpGet (stock_url w "AAPL")) state_alice)
            | Raise e =>
                (Raise e, add_event (HttpGet (stock_url w "AAPL")) state_alice)
            end.
Proof.
  assert (Hform : valid_stock_form (post_ticker "AAPL") "AAPL")
    by (split; reflexivity).
  assert (Hne : daily_entries <> []) by discriminate.
  split; [exact Hform|]. split; [reflexivity|]. split; [exact Hne|].
  destruct daily_prices_plotted as [prices Hplot].
  exists prices. split; [exact Hplot|].
  exact (stock_tracker_shows_provider_series (world_of daily_reply)
           (post_ticker "AAPL") state_alice "AAPL" 200 _ daily_entries prices
           Hform eq_refl eq_refl eq_refl eq_refl Hne Hplot).
Defined.

Section AnonymousRobustness.
Context {rt : Runtime} {data_py : DataModule}.

(** How a view ends for a client who is not logged in. *)
Lemma anonymous_view_returns w ep req st :
  get_current_user st = None ->
  exists r,
    fst (view_function w ep req st) = Ret r
    /\ ((exists target next, r = Redirect target next)
        \/ exists body, r = Rendered body 200 /\ body <> error_500_html).
Proof.
  intros Hanon.
  assert (Hprotected : forall view : User -> M response,
            exists r,
              fst (login_required req view st) = Ret r
              /\ ((exists target next, r = Redirect target next)
                  \/ exists body, r = Rendered body 200 /\ body <> error_500_html)).
  { intros view. rewrite (login_required_anonymous req view st Hanon).
    cbn. eexists. split; [reflexivity|]. left. eauto. }
  destruct ep; cbn [view_function]; try apply Hprotected.
  - cbn. eexists. split; [reflexivity|]. right. eexists. split; [reflexivity|].
    discriminate.
  - destruct (login_cases req st)
      as [H | [[errors H] | [(st' & H & _) | (u & n & p & _ & _ & _ & _ & H)]]];
      rewrite H; cbn [fst]; eexists; (split; [reflexivity|]);
      first [ left; eexists; eexists; reflexivity
            | right; eexists; split; [reflexivity | discriminate] ].
  - cbn. eexists. split; [reflexivity|]. left. eexists; eexists; reflexivity.
  - destruct (register_cases w req st) as [H | [[errors H] | (_ & _ & _ & H)]];
      rewrite H; cbn [fst]; eexists; (split; [reflexivity|]);
      first [ left; eexists; eexists; reflexivity
            | right; eexists; split; [reflexivity | discriminate] ].
Qed.

(** X24.  A client who is not logged in cannot provoke an internal
    error: whatever the path, the method, the form and the provider, the
    answer to an anonymous request is never the page of status 500. *)
Theorem anonymous_request_never_fails (w : world) (req : request) (st : state) :
  get_current_user st = None ->
  forall body, fst (full_dispatch_request w req st) <> Rendered body 500.
Proof.
  intros Hanon body. unfold full_dispatch_request.
  destruct (dict_lookup (path req) url_map) as [[ep methods]|];
    [|cbn; discriminate].
  destruct (existsb (method_eqb (method req)) methods); [|cbn; discriminate].
  destruct (anonymous_view_returns w ep req st Hanon) as (r & Hr & Hshape).
  destruct (view_function w ep req st) as [[r'|e] st']; cbn in Hr;
    [|discriminate Hr].
  injection Hr as ->. cbn.
  destruct Hshape as [(target & next & ->) | (page & -> & _)]; discriminate.
Qed.

End AnonymousRobustness.

Lemma anonymous_request_never_fails_witness :
  let w := world_of malformed_reply in
  get_current_user state_anonymous = None
  /\ forall body,
       fst (full_dispatch_request w (post_ticker "AAPL") state_anonymous)
         <> Rendered body 500.
Proof.
  split; [reflexivity|].
  exact (anonymous_request_never_fails (world_of malformed_reply)
           (post_ticker "AAPL") state_anonymous eq_refl).
Defined.
